(** * PowerNV PHB4 PEC (PCI Express Controller) model

    A shallow embedding of [hw/pci-host/pnv_phb4_pec.c]: the two XSCOM
    register banks of a PEC ("nest" and "pci"), the realisation of a PEC and
    of its stacks, and the device-tree export of a PEC.

    Conventions.
    - C integers are [Z]; every conversion that can wrap is written out
      ([uint32_t], [int_of_uint32]).
    - A C array is a [list] of the declared length; an access outside of it
      is undefined behaviour in C and is the outcome [Undefined] here.
    - [exit()]/[abort()] paths ([_FDT], [error_abort]) are the outcome
      [Exits].
    - Constants coming from headers that this file only includes are the
      fields of the class [Phb4Headers]; [pnv9_headers] gives the POWER9
      values. *)

From Stdlib Require Import ZArith List String Ascii Bool Lia.
From Stdlib Require Import DecimalString HexadecimalString DecimalZ HexadecimalN.
From stdpp Require Import base list list_numbers.
Import ListNotations.

Open Scope Z_scope.

(** ** Machine integers and printf conversions *)

(** Conversion of an integer to [uint32_t]. *)
Definition uint32_t (z : Z) : Z := z mod 2 ^ 32.

(** A [uint32_t] value read back as an [int] (what [%d] does with it). *)
Definition int_of_uint32 (z : Z) : Z := if z <? 2 ^ 31 then z else z - 2 ^ 32.

(** [%d] *)
Definition fmt_d (z : Z) : string :=
  DecimalString.NilZero.string_of_int (Z.to_int z).

(** [%x], [HWADDR_PRIx], [PRIx64]: lower-case hexadecimal, no padding. *)
Definition fmt_x (z : Z) : string :=
  HexadecimalString.NilZero.string_of_uint (N.to_hex_uint (Z.to_N z)).

Definition nl : string := String (ascii_of_nat 10) EmptyString.

Fixpoint concat_str (l : list string) : string :=
  match l with
  | [] => EmptyString
  | s :: l' => String.append s (concat_str l')
  end.

(** The bytes of a C string, without the terminating NUL. *)
Fixpoint bytes_of_string (s : string) : list Z :=
  match s with
  | EmptyString => []
  | String c s' => Z.of_nat (nat_of_ascii c) :: bytes_of_string s'
  end.

(** The memory image of a 32-bit big-endian word: [cpu_to_be32] followed by
    a byte-wise copy, and [cpu_to_fdt32] inside [fdt_setprop_cell]. *)
Definition cpu_to_be32 (v : Z) : list Z :=
  [ Z.land (Z.shiftr v 24) 255; Z.land (Z.shiftr v 16) 255;
    Z.land (Z.shiftr v 8) 255; Z.land v 255 ].

(** ** Outcomes of a C call *)

Inductive outcome (A : Type) : Type :=
| Returns (a : A)      (* the call returns *)
| Exits                (* the process exits: [_FDT], [error_abort], [error_fatal] *)
| Undefined.           (* undefined behaviour: access outside of an array *)

Arguments Returns {A} a.
Arguments Exits {A}.
Arguments Undefined {A}.

Definition obind {A B : Type} (m : outcome A) (k : A -> outcome B) : outcome B :=
  match m with
  | Returns a => k a
  | Exits => Exits
  | Undefined => Undefined
  end.

Notation "'let*' x := m 'in' k" := (obind m (fun x => k))
  (at level 10, x name, m at level 100, k at level 200).
Notation "'let*' ' p := m 'in' k" := (obind m (fun p => k))
  (at level 10, p pattern, m at level 100, k at level 200).

(** [a[i]] and [a[i] = v] on a C array.  *)
Definition array_get {A : Type} (a : list A) (i : Z) : outcome A :=
  match a !! Z.to_nat i with
  | Some v => if 0 <=? i then Returns v else Undefined
  | None => Undefined
  end.

Definition array_set {A : Type} (a : list A) (i : Z) (v : A) : outcome (list A) :=
  if (0 <=? i) && (i <? Z.of_nat (length a))
  then Returns (<[Z.to_nat i := v]> a)
  else Undefined.

(** ** Header constants *)

(** The register numbers of [hw/pci-host/pnv_phb4_regs.h], the array sizes
    and the version of [hw/pci-host/pnv_phb4.h], and the XSCOM ranges of
    [hw/ppc/pnv_xscom.h]. *)
Class Phb4Headers : Type := {
  PEC_NEST_PBCQ_HW_CONFIG : Z;
  PEC_NEST_DROP_PRIO_CTRL : Z;
  PEC_NEST_PBCQ_ERR_INJECT : Z;
  PEC_NEST_PCI_NEST_CLK_TRACE_CTL : Z;
  PEC_NEST_PBCQ_PMON_CTRL : Z;
  PEC_NEST_PBCQ_PBUS_ADDR_EXT : Z;
  PEC_NEST_PBCQ_PRED_VEC_TIMEOUT : Z;
  PEC_NEST_CAPP_CTRL : Z;
  PEC_NEST_PBCQ_READ_STK_OVR : Z;
  PEC_NEST_PBCQ_WRITE_STK_OVR : Z;
  PEC_NEST_PBCQ_STORE_STK_OVR : Z;
  PEC_NEST_PBCQ_RETRY_BKOFF_CTRL : Z;
  PEC_PCI_PBAIB_HW_CONFIG : Z;
  PEC_PCI_PBAIB_READ_STK_OVR : Z;
  PHB4_PEC_NEST_REGS_COUNT : Z;
  PHB4_PEC_PCI_REGS_COUNT : Z;
  PHB4_PEC_MAX_STACKS : Z;
  PNV_PHB4_VERSION : Z;
  PNV9_XSCOM_PEC_NEST_BASE : Z;
  PNV9_XSCOM_PEC_NEST_SIZE : Z;
  PNV9_XSCOM_PEC_PCI_BASE : Z;
  PNV9_XSCOM_PEC_PCI_SIZE : Z
}.

(** The values of these constants for POWER9, on which the examples at the
    end of the file are run. *)
Definition pnv9_headers : Phb4Headers := {|
  PEC_NEST_PBCQ_HW_CONFIG := 0x00;
  PEC_NEST_DROP_PRIO_CTRL := 0x01;
  PEC_NEST_PBCQ_ERR_INJECT := 0x02;
  PEC_NEST_PCI_NEST_CLK_TRACE_CTL := 0x03;
  PEC_NEST_PBCQ_PMON_CTRL := 0x04;
  PEC_NEST_PBCQ_PBUS_ADDR_EXT := 0x05;
  PEC_NEST_PBCQ_PRED_VEC_TIMEOUT := 0x06;
  PEC_NEST_CAPP_CTRL := 0x07;
  PEC_NEST_PBCQ_READ_STK_OVR := 0x08;
  PEC_NEST_PBCQ_WRITE_STK_OVR := 0x09;
  PEC_NEST_PBCQ_STORE_STK_OVR := 0x0a;
  PEC_NEST_PBCQ_RETRY_BKOFF_CTRL := 0x0b;
  PEC_PCI_PBAIB_HW_CONFIG := 0x00;
  PEC_PCI_PBAIB_READ_STK_OVR := 0x02;
  PHB4_PEC_NEST_REGS_COUNT := 0xf;
  PHB4_PEC_PCI_REGS_COUNT := 0xf;
  PHB4_PEC_MAX_STACKS := 3;
  PNV_PHB4_VERSION := 0x000000a400000002;
  PNV9_XSCOM_PEC_NEST_BASE := 0x4010c00;
  PNV9_XSCOM_PEC_NEST_SIZE := 0x100;
  PNV9_XSCOM_PEC_PCI_BASE := 0xd010800;
  PNV9_XSCOM_PEC_PCI_SIZE := 0x200
|}.

(** ** Device state *)

(** What the PEC code sets on a PHB4 before realising it. *)
Record PnvPHB4 : Type := {
  phb_chip_id : Z;     (* property "chip-id" *)
  phb_index : Z;       (* property "index" *)
  phb_version : Z;     (* property "version" *)
  phb_stack : Z;       (* link "stack": the stack's number *)
  phb_realized : bool
}.

Record PnvPhb4PecStack : Type := {
  stack_no : Z;              (* property "stack-no" *)
  stk_pec : bool;            (* link "pec" set *)
  phb : option PnvPHB4;      (* stack->phb *)
  stk_realized : bool;
  stk_parented : bool        (* still a child of the PEC *)
}.

Inductive bank : Type := Nest | Pci.

(** The arguments [pnv_xscom_region_init] is called with. *)
Record MemoryRegion : Type := {
  mr_ops : bank;
  mr_name : string;
  mr_size : Z
}.

Record PnvPhb4PecState : Type := {
  index : Z;
  chip_id : Z;
  chip_num_pecs : Z;   (* PNV_CHIP_GET_CLASS(pec->chip)->num_pecs *)
  nest_regs : list Z;
  nest_regs_mr : option MemoryRegion;
  pci_regs : list Z;
  pci_regs_mr : option MemoryRegion;
  num_stacks : Z;
  stacks : list PnvPhb4PecStack
}.

Definition set_nest_regs (pec : PnvPhb4PecState) (r : list Z) : PnvPhb4PecState :=
  {| index := index pec; chip_id := chip_id pec; chip_num_pecs := chip_num_pecs pec;
     nest_regs := r; nest_regs_mr := nest_regs_mr pec;
     pci_regs := pci_regs pec; pci_regs_mr := pci_regs_mr pec;
     num_stacks := num_stacks pec; stacks := stacks pec |}.

Definition set_pci_regs (pec : PnvPhb4PecState) (r : list Z) : PnvPhb4PecState :=
  {| index := index pec; chip_id := chip_id pec; chip_num_pecs := chip_num_pecs pec;
     nest_regs := nest_regs pec; nest_regs_mr := nest_regs_mr pec;
     pci_regs := r; pci_regs_mr := pci_regs_mr pec;
     num_stacks := num_stacks pec; stacks := stacks pec |}.

Definition set_num_stacks (pec : PnvPhb4PecState) (n : Z) : PnvPhb4PecState :=
  {| index := index pec; chip_id := chip_id pec; chip_num_pecs := chip_num_pecs pec;
     nest_regs := nest_regs pec; nest_regs_mr := nest_regs_mr pec;
     pci_regs := pci_regs pec; pci_regs_mr := pci_regs_mr pec;
     num_stacks := n; stacks := stacks pec |}.

Definition set_stacks (pec : PnvPhb4PecState) (s : list PnvPhb4PecStack) : PnvPhb4PecState :=
  {| index := index pec; chip_id := chip_id pec; chip_num_pecs := chip_num_pecs pec;
     nest_regs := nest_regs pec; nest_regs_mr := nest_regs_mr pec;
     pci_regs := pci_regs pec; pci_regs_mr := pci_regs_mr pec;
     num_stacks := num_stacks pec; stacks := s |}.

Definition set_nest_regs_mr (pec : PnvPhb4PecState) (mr : MemoryRegion) : PnvPhb4PecState :=
  {| index := index pec; chip_id := chip_id pec; chip_num_pecs := chip_num_pecs pec;
     nest_regs := nest_regs pec; nest_regs_mr := Some mr;
     pci_regs := pci_regs pec; pci_regs_mr := pci_regs_mr pec;
     num_stacks := num_stacks pec; stacks := stacks pec |}.

Definition set_pci_regs_mr (pec : PnvPhb4PecState) (mr : MemoryRegion) : PnvPhb4PecState :=
  {| index := index pec; chip_id := chip_id pec; chip_num_pecs := chip_num_pecs pec;
     nest_regs := nest_regs pec; nest_regs_mr := nest_regs_mr pec;
     pci_regs := pci_regs pec; pci_regs_mr := Some mr;
     num_stacks := num_stacks pec; stacks := stacks pec |}.

(** ** The guest-error log *)

Inductive log_mask : Type := LOG_GUEST_ERROR.

Record log_entry : Type := {
  log_category : log_mask;
  log_text : string
}.

(** [phb_pec_error(pec, "%s @0x%"HWADDR_PRIx"=%"PRIx64"\n", func, addr, val)]:
    one [qemu_log_mask(LOG_GUEST_ERROR, "phb4_pec[%d:%d]: " fmt "\n", ...)]. *)
Definition phb_pec_error (pec : PnvPhb4PecState) (func : string) (addr val : Z) : log_entry :=
  {| log_category := LOG_GUEST_ERROR;
     log_text := concat_str
       [ "phb4_pec["%string; fmt_d (int_of_uint32 (chip_id pec)); ":"%string;
         fmt_d (int_of_uint32 (index pec)); "]: "%string;
         func; " @0x"%string; fmt_x addr; "="%string; fmt_x val; nl; nl ] |}.

(** ** The XSCOM register banks *)

Section RegisterBanks.
Context {hdr : Phb4Headers}.

Definition pnv_pec_nest_xscom_read (pec : PnvPhb4PecState) (addr : Z) (size : Z)
  : outcome Z :=
  let reg := uint32_t (Z.shiftr addr 3) in
  array_get (nest_regs pec) reg.

Definition pnv_pec_nest_xscom_write (pec : PnvPhb4PecState) (addr val : Z) (size : Z)
  : outcome (PnvPhb4PecState * list log_entry) :=
  let reg := uint32_t (Z.shiftr addr 3) in
  if (reg =? PEC_NEST_PBCQ_HW_CONFIG)
     || (reg =? PEC_NEST_DROP_PRIO_CTRL)
     || (reg =? PEC_NEST_PBCQ_ERR_INJECT)
     || (reg =? PEC_NEST_PCI_NEST_CLK_TRACE_CTL)
     || (reg =? PEC_NEST_PBCQ_PMON_CTRL)
     || (reg =? PEC_NEST_PBCQ_PBUS_ADDR_EXT)
     || (reg =? PEC_NEST_PBCQ_PRED_VEC_TIMEOUT)
     || (reg =? PEC_NEST_CAPP_CTRL)
     || (reg =? PEC_NEST_PBCQ_READ_STK_OVR)
     || (reg =? PEC_NEST_PBCQ_WRITE_STK_OVR)
     || (reg =? PEC_NEST_PBCQ_STORE_STK_OVR)
     || (reg =? PEC_NEST_PBCQ_RETRY_BKOFF_CTRL)
  then
    let* regs := array_set (nest_regs pec) reg val in
    Returns (set_nest_regs pec regs, [])
  else
    Returns (pec, [phb_pec_error pec "pnv_pec_nest_xscom_write" addr val]).

Definition pnv_pec_pci_xscom_read (pec : PnvPhb4PecState) (addr : Z) (size : Z)
  : outcome Z :=
  let reg := uint32_t (Z.shiftr addr 3) in
  array_get (pci_regs pec) reg.

Definition pnv_pec_pci_xscom_write (pec : PnvPhb4PecState) (addr val : Z) (size : Z)
  : outcome (PnvPhb4PecState * list log_entry) :=
  let reg := uint32_t (Z.shiftr addr 3) in
  if (reg =? PEC_PCI_PBAIB_HW_CONFIG)
     || (reg =? PEC_PCI_PBAIB_READ_STK_OVR)
  then
    let* regs := array_set (pci_regs pec) reg val in
    Returns (set_pci_regs pec regs, [])
  else
    Returns (pec, [phb_pec_error pec "pnv_pec_pci_xscom_write" addr val]).

End RegisterBanks.

(** The two [MemoryRegionOps] tables. *)
Inductive device_endian : Type := DEVICE_BIG_ENDIAN.

Record MemoryRegionOps : Type := {
  read : PnvPhb4PecState -> Z -> Z -> outcome Z;
  write : PnvPhb4PecState -> Z -> Z -> Z -> outcome (PnvPhb4PecState * list log_entry);
  valid_min_access_size : Z;
  valid_max_access_size : Z;
  impl_min_access_size : Z;
  impl_max_access_size : Z;
  endianness : device_endian
}.

Definition pnv_pec_nest_xscom_ops {hdr : Phb4Headers} : MemoryRegionOps := {|
  read := pnv_pec_nest_xscom_read;
  write := pnv_pec_nest_xscom_write;
  valid_min_access_size := 8;
  valid_max_access_size := 8;
  impl_min_access_size := 8;
  impl_max_access_size := 8;
  endianness := DEVICE_BIG_ENDIAN
|}.

Definition pnv_pec_pci_xscom_ops {hdr : Phb4Headers} : MemoryRegionOps := {|
  read := pnv_pec_pci_xscom_read;
  write := pnv_pec_pci_xscom_write;
  valid_min_access_size := 8;
  valid_max_access_size := 8;
  impl_min_access_size := 8;
  impl_max_access_size := 8;
  endianness := DEVICE_BIG_ENDIAN
|}.

Definition xscom_ops {hdr : Phb4Headers} (b : bank) : MemoryRegionOps :=
  match b with
  | Nest => pnv_pec_nest_xscom_ops
  | Pci => pnv_pec_pci_xscom_ops
  end.

(** The backing array of a bank, its declared length, and the name of its
    write handler ([__func__]). *)
Definition bank_regs (b : bank) (pec : PnvPhb4PecState) : list Z :=
  match b with
  | Nest => nest_regs pec
  | Pci => pci_regs pec
  end.

Definition set_bank_regs (b : bank) (pec : PnvPhb4PecState) (r : list Z) : PnvPhb4PecState :=
  match b with
  | Nest => set_nest_regs pec r
  | Pci => set_pci_regs pec r
  end.

Definition bank_regs_count {hdr : Phb4Headers} (b : bank) : Z :=
  match b with
  | Nest => PHB4_PEC_NEST_REGS_COUNT
  | Pci => PHB4_PEC_PCI_REGS_COUNT
  end.

Definition other_bank (b : bank) : bank :=
  match b with Nest => Pci | Pci => Nest end.

Definition write_func (b : bank) : string :=
  match b with
  | Nest => "pnv_pec_nest_xscom_write"
  | Pci => "pnv_pec_pci_xscom_write"
  end.

(** The [case] labels of the two write handlers, as sets. *)
Definition write_whitelist {hdr : Phb4Headers} (b : bank) : list Z :=
  match b with
  | Nest =>
      [ PEC_NEST_PBCQ_HW_CONFIG; PEC_NEST_DROP_PRIO_CTRL; PEC_NEST_PBCQ_ERR_INJECT;
        PEC_NEST_PCI_NEST_CLK_TRACE_CTL; PEC_NEST_PBCQ_PMON_CTRL;
        PEC_NEST_PBCQ_PBUS_ADDR_EXT; PEC_NEST_PBCQ_PRED_VEC_TIMEOUT;
        PEC_NEST_CAPP_CTRL; PEC_NEST_PBCQ_READ_STK_OVR; PEC_NEST_PBCQ_WRITE_STK_OVR;
        PEC_NEST_PBCQ_STORE_STK_OVR; PEC_NEST_PBCQ_RETRY_BKOFF_CTRL ]
  | Pci => [ PEC_PCI_PBAIB_HW_CONFIG; PEC_PCI_PBAIB_READ_STK_OVR ]
  end.

(** The whitelists as the specification enumerates them: for the nest bank
    hardware-config, error-injection, clock-trace-control,
    performance-monitor-control, address-extension, prediction-timeout,
    capp-control, read-, write- and store-stack-override and
    retry-backoff-control; for the pci bank hardware-config and
    read-stack-override. *)
Definition spec_whitelist {hdr : Phb4Headers} (b : bank) : list Z :=
  match b with
  | Nest =>
      [ PEC_NEST_PBCQ_HW_CONFIG; PEC_NEST_PBCQ_ERR_INJECT;
        PEC_NEST_PCI_NEST_CLK_TRACE_CTL; PEC_NEST_PBCQ_PMON_CTRL;
        PEC_NEST_PBCQ_PBUS_ADDR_EXT; PEC_NEST_PBCQ_PRED_VEC_TIMEOUT;
        PEC_NEST_CAPP_CTRL; PEC_NEST_PBCQ_READ_STK_OVR; PEC_NEST_PBCQ_WRITE_STK_OVR;
        PEC_NEST_PBCQ_STORE_STK_OVR; PEC_NEST_PBCQ_RETRY_BKOFF_CTRL ]
  | Pci => [ PEC_PCI_PBAIB_HW_CONFIG; PEC_PCI_PBAIB_READ_STK_OVR ]
  end.

(** Well-formedness of the headers: every [case] label is an index of the
    array the handler stores into. *)
Definition labels_in_bounds {hdr : Phb4Headers} : bool :=
  forallb (fun r => (0 <=? r) && (r <? PHB4_PEC_NEST_REGS_COUNT)) (write_whitelist Nest)
  && forallb (fun r => (0 <=? r) && (r <? PHB4_PEC_PCI_REGS_COUNT)) (write_whitelist Pci).

(** The banks are no longer than a [uint32_t] index can reach. *)
Definition regs_count_ok {hdr : Phb4Headers} : bool :=
  (PHB4_PEC_NEST_REGS_COUNT <=? 2 ^ 32) && (PHB4_PEC_PCI_REGS_COUNT <=? 2 ^ 32).

(** Well-formedness of a state: the arrays have their declared lengths. *)
Definition pec_sized {hdr : Phb4Headers} (pec : PnvPhb4PecState) : bool :=
  (Z.of_nat (length (nest_regs pec)) =? PHB4_PEC_NEST_REGS_COUNT)
  && (Z.of_nat (length (pci_regs pec)) =? PHB4_PEC_PCI_REGS_COUNT)
  && (Z.of_nat (length (stacks pec)) =? PHB4_PEC_MAX_STACKS).

(** ** The PEC class *)

(** [error_setg] leaves a message in [*errp]. *)
Record Error : Type := { error_msg : string }.

Definition pnv_pec_xscom_pci_base {hdr : Phb4Headers} (pec : PnvPhb4PecState) : Z :=
  uint32_t (PNV9_XSCOM_PEC_PCI_BASE + 0x1000000 * index pec).

Definition pnv_pec_xscom_nest_base {hdr : Phb4Headers} (pec : PnvPhb4PecState) : Z :=
  uint32_t (PNV9_XSCOM_PEC_NEST_BASE + 0x400 * index pec).

(** PEC0 -> 1 stack, PEC1 -> 2 stacks, PEC2 -> 3 stacks *)
Definition pnv_pec_num_stacks : list Z := [1; 2; 3].

(** [sizeof] of a [char] array initialised from a string literal, and its
    memory image. *)
Definition sizeof_str (s : string) : Z := Z.of_nat (String.length s) + 1.

Definition chars_of (s : string) : list Z := bytes_of_string s ++ [0].

Record PnvPhb4PecClass : Type := {
  xscom_nest_base : PnvPhb4PecState -> Z;
  xscom_pci_base : PnvPhb4PecState -> Z;
  xscom_nest_size : Z;
  xscom_pci_size : Z;
  compat : string;
  compat_size : Z;
  stk_compat : string;
  stk_compat_size : Z;
  version : Z;
  pecc_num_stacks : list Z     (* the field [num_stacks] of the class *)
}.

Definition pnv_pec_class_init {hdr : Phb4Headers} : PnvPhb4PecClass :=
  let compat := "ibm,power9-pbcq"%string in
  let stk_compat := "ibm,power9-phb-stack"%string in
  {| xscom_nest_base := pnv_pec_xscom_nest_base;
     xscom_pci_base := pnv_pec_xscom_pci_base;
     xscom_nest_size := PNV9_XSCOM_PEC_NEST_SIZE;
     xscom_pci_size := PNV9_XSCOM_PEC_PCI_SIZE;
     compat := compat;
     compat_size := sizeof_str compat;
     stk_compat := stk_compat;
     stk_compat_size := sizeof_str stk_compat;
     version := PNV_PHB4_VERSION;
     pecc_num_stacks := pnv_pec_num_stacks |}.

(** ** The flattened device tree

    The tree inside the blob that libfdt edits, in the order of the blob:
    libfdt places a new property in front of the properties of its node,
    and a new subnode behind the properties of its parent, in front of the
    subnodes that the parent has.  A node offset is the path from the root:
    the positions of the subnodes to descend into.

    What else makes a call fail -- no room left in the blob, a blob that is
    not well formed -- does not show in the tree; it is the oracle
    [libfdt_oracle].  Which error libfdt reports when several apply is not
    modelled: the callers only test for an error. *)

Record fdt_prop : Type := { prop_name : string; prop_val : list Z }.

#[local] Set Warnings "-register-all".

Inductive fdt_node : Type :=
| FdtNode (name : string) (props : list fdt_prop) (subnodes : list fdt_node).

Definition node_name (n : fdt_node) : string :=
  match n with FdtNode name _ _ => name end.

Definition node_props (n : fdt_node) : list fdt_prop :=
  match n with FdtNode _ props _ => props end.

Definition node_subnodes (n : fdt_node) : list fdt_node :=
  match n with FdtNode _ _ subnodes => subnodes end.

Inductive fdt_error : Type :=
| FDT_ERR_NOTFOUND | FDT_ERR_EXISTS | FDT_ERR_NOSPACE | FDT_ERR_BADOFFSET
| FDT_ERR_BADMAGIC | FDT_ERR_BADVERSION | FDT_ERR_BADSTRUCTURE | FDT_ERR_INTERNAL.

(** The two libfdt calls of this file, and what libfdt answers to a call
    for reasons that the tree does not show: [Some] error, or [None] when
    the call goes through. *)
Inductive fdt_call : Type :=
| FdtAddSubnode (parentoffset : list nat) (name : string)
| FdtSetprop (nodeoffset : list nat) (name : string) (len : Z).

Definition libfdt_oracle : Type := fdt_node -> fdt_call -> option fdt_error.

(** A blob that is well formed and never full. *)
Definition no_refusal : libfdt_oracle := fun _ _ => None.

Definition never_refuses (refuses : libfdt_oracle) : Prop :=
  forall fdt call, refuses fdt call = None.

Fixpoint node_at (fdt : fdt_node) (offset : list nat) : option fdt_node :=
  match offset with
  | [] => Some fdt
  | i :: offset' =>
      match node_subnodes fdt !! i with
      | Some c => node_at c offset'
      | None => None
      end
  end.

Fixpoint update_at (fdt : fdt_node) (offset : list nat) (f : fdt_node -> fdt_node)
  : fdt_node :=
  match offset with
  | [] => f fdt
  | i :: offset' =>
      match node_subnodes fdt !! i with
      | Some c =>
          FdtNode (node_name fdt) (node_props fdt)
                  (<[i := update_at c offset' f]> (node_subnodes fdt))
      | None => fdt
      end
  end.

Definition has_subnode (n : fdt_node) (name : string) : bool :=
  existsb (fun c => String.eqb (node_name c) name) (node_subnodes n).

(** The new subnode goes in front of the subnodes of its parent. *)
Definition prepend_subnode (c : fdt_node) (n : fdt_node) : fdt_node :=
  FdtNode (node_name n) (node_props n) (c :: node_subnodes n).

Fixpoint props_get (props : list fdt_prop) (name : string) : option (list Z) :=
  match props with
  | [] => None
  | p :: props' =>
      if String.eqb (prop_name p) name then Some (prop_val p)
      else props_get props' name
  end.

Fixpoint props_replace (props : list fdt_prop) (name : string) (val : list Z)
  : list fdt_prop :=
  match props with
  | [] => []
  | p :: props' =>
      if String.eqb (prop_name p) name
      then {| prop_name := name; prop_val := val |} :: props'
      else p :: props_replace props' name val
  end.

(** A property that the node has keeps its place; a new one goes in front
    of the others. *)
Definition props_set (props : list fdt_prop) (name : string) (val : list Z)
  : list fdt_prop :=
  match props_get props name with
  | Some _ => props_replace props name val
  | None => {| prop_name := name; prop_val := val |} :: props
  end.

Definition node_setprop (name : string) (val : list Z) (n : fdt_node) : fdt_node :=
  FdtNode (node_name n) (props_set (node_props n) name val) (node_subnodes n).

(** [fdt_add_subnode]: the offset of the new node, which is the first
    subnode of its parent, or an error. *)
Definition fdt_add_subnode (refuses : libfdt_oracle) (fdt : fdt_node)
    (parentoffset : list nat) (name : string)
  : fdt_node * (fdt_error + list nat) :=
  match node_at fdt parentoffset with
  | None => (fdt, inl FDT_ERR_BADOFFSET)
  | Some parent =>
      if has_subnode parent name then (fdt, inl FDT_ERR_EXISTS)
      else
        match refuses fdt (FdtAddSubnode parentoffset name) with
        | Some err => (fdt, inl err)
        | None =>
            (update_at fdt parentoffset (prepend_subnode (FdtNode name [] [])),
             inr (parentoffset ++ [0%nat]))
        end
  end.

(** [fdt_setprop(fdt, nodeoffset, name, val, len)] *)
Definition fdt_setprop (refuses : libfdt_oracle) (fdt : fdt_node)
    (nodeoffset : list nat) (name : string) (val : list Z) (len : Z)
  : fdt_node * (fdt_error + unit) :=
  match node_at fdt nodeoffset with
  | None => (fdt, inl FDT_ERR_BADOFFSET)
  | Some _ =>
      match refuses fdt (FdtSetprop nodeoffset name len) with
      | Some err => (fdt, inl err)
      | None =>
          (update_at fdt nodeoffset (node_setprop name (firstn (Z.to_nat len) val)),
           inr tt)
      end
  end.

(** [fdt_setprop_cell(fdt, nodeoffset, name, val)], [val] a [uint32_t]. *)
Definition fdt_setprop_cell (refuses : libfdt_oracle) (fdt : fdt_node)
    (nodeoffset : list nat) (name : string) (val : Z)
  : fdt_node * (fdt_error + unit) :=
  fdt_setprop refuses fdt nodeoffset name (cpu_to_be32 (uint32_t val)) 4.

(** [_FDT(exp)]: report the error and [exit(1)] when [exp] is negative. *)
Definition _FDT {A : Type} (r : fdt_node * (fdt_error + A)) : outcome (fdt_node * A) :=
  match r with
  | (fdt, inr a) => Returns (fdt, a)
  | (_, inl _) => Exits
  end.

(** ** Creation and realisation *)

Definition set_stack_no (stack : PnvPhb4PecStack) (n : Z) : PnvPhb4PecStack :=
  {| stack_no := n; stk_pec := stk_pec stack; phb := phb stack;
     stk_realized := stk_realized stack; stk_parented := stk_parented stack |}.

Definition set_stk_pec (stack : PnvPhb4PecStack) : PnvPhb4PecStack :=
  {| stack_no := stack_no stack; stk_pec := true; phb := phb stack;
     stk_realized := stk_realized stack; stk_parented := stk_parented stack |}.

Definition set_phb (stack : PnvPhb4PecStack) (p : PnvPHB4) : PnvPhb4PecStack :=
  {| stack_no := stack_no stack; stk_pec := stk_pec stack; phb := Some p;
     stk_realized := stk_realized stack; stk_parented := stk_parented stack |}.

Definition set_stk_realized (stack : PnvPhb4PecStack) : PnvPhb4PecStack :=
  {| stack_no := stack_no stack; stk_pec := stk_pec stack; phb := phb stack;
     stk_realized := true; stk_parented := stk_parented stack |}.

Definition object_unparent (stack : PnvPhb4PecStack) : PnvPhb4PecStack :=
  {| stack_no := stack_no stack; stk_pec := stk_pec stack; phb := phb stack;
     stk_realized := stk_realized stack; stk_parented := false |}.

Definition set_phb_realized (p : PnvPHB4) : PnvPHB4 :=
  {| phb_chip_id := phb_chip_id p; phb_index := phb_index p;
     phb_version := phb_version p; phb_stack := phb_stack p;
     phb_realized := true |}.

(** A stack as [object_initialize_child] leaves it: zeroed, a child of the
    PEC. *)
Definition stack_initial : PnvPhb4PecStack :=
  {| stack_no := 0; stk_pec := false; phb := None;
     stk_realized := false; stk_parented := true |}.

(** [pnv_pec_instance_init] on the zeroed instance: the stacks become
    children of the PEC, everything else stays zero. *)
Definition pnv_pec_instance_init {hdr : Phb4Headers} : PnvPhb4PecState :=
  {| index := 0; chip_id := 0; chip_num_pecs := 0;
     nest_regs := replicate (Z.to_nat PHB4_PEC_NEST_REGS_COUNT) 0;
     nest_regs_mr := None;
     pci_regs := replicate (Z.to_nat PHB4_PEC_PCI_REGS_COUNT) 0;
     pci_regs_mr := None;
     num_stacks := 0;
     stacks := replicate (Z.to_nat PHB4_PEC_MAX_STACKS) stack_initial |}.

(** A PEC after its creation and the setting of the properties "index",
    "chip-id" and "chip" ([num_pecs] is what the class of the chip declares). *)
Definition pec_create {hdr : Phb4Headers} (chip index num_pecs : Z) : PnvPhb4PecState :=
  let pec := pnv_pec_instance_init in
  {| index := index; chip_id := chip; chip_num_pecs := num_pecs;
     nest_regs := nest_regs pec; nest_regs_mr := nest_regs_mr pec;
     pci_regs := pci_regs pec; pci_regs_mr := pci_regs_mr pec;
     num_stacks := num_stacks pec; stacks := stacks pec |}.

Section Pec.
Context {hdr : Phb4Headers}.

(** [defaults_enabled()] *)
Variable defaults_enabled : bool.

(** [sysbus_realize] of a PHB4: [None] on success, the error left in
    [*errp] otherwise. *)
Variable sysbus_realize : PnvPHB4 -> option Error.

(** The function that [pnv_phb4_pec_get_phb_id] computes from the index of
    the PEC and the number of the stack. *)
Variable derive_phb_index : Z -> Z -> Z.

(** Modelled from the spec: [pnv_phb4_pec_get_phb_id] is not defined in
    this file (the PHB4 header declares it); the specification describes
    it as "a pure function combining the controller's own position and the
    stack's position into a single chip-global PHB identifier".  It is
    [derive_phb_index], whatever that function is, of the controller's
    index and of the stack's number. *)
Definition pnv_phb4_pec_get_phb_id (pec : PnvPhb4PecState) (stack_index : Z) : Z :=
  derive_phb_index (index pec) stack_index.

Definition pnv_pec_stk_default_phb_realize (pec : PnvPhb4PecState)
    (stack : PnvPhb4PecStack) : PnvPhb4PecStack * option Error :=
  let pecc := pnv_pec_class_init in
  let phb_id := pnv_phb4_pec_get_phb_id pec (stack_no stack) in
  let new_phb :=
    {| phb_chip_id := chip_id pec;
       phb_index := phb_id;
       phb_version := version pecc;
       phb_stack := stack_no stack;
       phb_realized := false |} in
  match sysbus_realize new_phb with
  | Some err => (set_phb stack new_phb, Some err)
  | None => (set_phb stack (set_phb_realized new_phb), None)
  end.

Definition pnv_pec_stk_realize (pec : PnvPhb4PecState) (stack : PnvPhb4PecStack)
  : PnvPhb4PecStack * option Error :=
  if negb defaults_enabled then (stack, None)
  else pnv_pec_stk_default_phb_realize pec stack.

(** [qdev_realize] of a stack: the device is realised when its [realize]
    method left no error. *)
Definition qdev_realize (pec : PnvPhb4PecState) (stack : PnvPhb4PecStack)
  : PnvPhb4PecStack * option Error :=
  match pnv_pec_stk_realize pec stack with
  | (stack', Some err) => (stack', Some err)
  | (stack', None) => (set_stk_realized stack', None)
  end.

(** The loop [for (i = 0; i < pec->num_stacks; i++)] of [pnv_pec_realize],
    with [fuel] iterations left; it returns the value of [i] it stops at. *)
Fixpoint create_stacks (fuel : nat) (i : Z) (pec : PnvPhb4PecState)
  : outcome (PnvPhb4PecState * Z * option Error) :=
  match fuel with
  | O => Returns (pec, i, None)
  | S fuel' =>
      let* stack := array_get (stacks pec) i in
      let stack := set_stk_pec (set_stack_no stack i) in
      match qdev_realize pec stack with
      | (stack', Some err) =>
          let* stks := array_set (stacks pec) i stack' in
          Returns (set_stacks pec stks, i, Some err)
      | (stack', None) =>
          let* stks := array_set (stacks pec) i stack' in
          create_stacks fuel' (i + 1) (set_stacks pec stks)
      end
  end.

(** The loop [for (; i < PHB4_PEC_MAX_STACKS; i++)]. *)
Fixpoint unparent_stacks (fuel : nat) (i : Z) (pec : PnvPhb4PecState)
  : outcome PnvPhb4PecState :=
  match fuel with
  | O => Returns pec
  | S fuel' =>
      let* stack := array_get (stacks pec) i in
      let* stks := array_set (stacks pec) i (object_unparent stack) in
      unparent_stacks fuel' (i + 1) (set_stacks pec stks)
  end.

Definition pnv_xscom_region_init (ops : bank) (name : string) (size : Z) : MemoryRegion :=
  {| mr_ops := ops; mr_name := name; mr_size := size |}.

Definition pnv_pec_realize (pec : PnvPhb4PecState)
  : outcome (PnvPhb4PecState * option Error) :=
  let pecc := pnv_pec_class_init in
  if index pec >=? chip_num_pecs pec then
    Returns (pec, Some {| error_msg :=
      String.append "invalid PEC index: " (fmt_d (int_of_uint32 (index pec))) |})
  else
    let* n := array_get (pecc_num_stacks pecc) (index pec) in
    let pec := set_num_stacks pec n in
    let* '(pec, i, err) := create_stacks (Z.to_nat (num_stacks pec)) 0 pec in
    match err with
    | Some e => Returns (pec, Some e)
    | None =>
        let* pec := unparent_stacks (Z.to_nat (PHB4_PEC_MAX_STACKS - i)) i pec in
        let name := concat_str
          [ "xscom-pec-"%string; fmt_d (int_of_uint32 (chip_id pec)); "."%string;
            fmt_d (int_of_uint32 (index pec)); "-nest"%string ] in
        let pec := set_nest_regs_mr pec
          (pnv_xscom_region_init Nest name PHB4_PEC_NEST_REGS_COUNT) in
        let name := concat_str
          [ "xscom-pec-"%string; fmt_d (int_of_uint32 (chip_id pec)); "."%string;
            fmt_d (int_of_uint32 (index pec)); "-pci"%string ] in
        let pec := set_pci_regs_mr pec
          (pnv_xscom_region_init Pci name PHB4_PEC_PCI_REGS_COUNT) in
        Returns (pec, None)
    end.

(** What libfdt answers, on the blob handed to [pnv_pec_dt_xscom], for
    reasons other than the shape of the tree. *)
Variable libfdt_refuses : libfdt_oracle.

(** The loop [for (i = 0; i < pec->num_stacks; i++)] of
    [pnv_pec_dt_xscom], with [fuel] iterations left. *)
Fixpoint dt_stacks (fuel : nat) (i : Z) (pec : PnvPhb4PecState)
    (fdt : fdt_node) (offset : list nat) : outcome fdt_node :=
  let pecc := pnv_pec_class_init in
  match fuel with
  | O => Returns fdt
  | S fuel' =>
      let phb_id := pnv_phb4_pec_get_phb_id pec i in
      let name := String.append "stack@" (fmt_x (uint32_t i)) in
      let* '(fdt, stk_offset) := _FDT (fdt_add_subnode libfdt_refuses fdt offset name) in
      let* '(fdt, _) := _FDT (fdt_setprop libfdt_refuses fdt stk_offset "compatible"
                               (chars_of (stk_compat pecc)) (stk_compat_size pecc)) in
      let* '(fdt, _) := _FDT (fdt_setprop_cell libfdt_refuses fdt stk_offset "reg" i) in
      let* '(fdt, _) := _FDT (fdt_setprop_cell libfdt_refuses fdt stk_offset "ibm,phb-index" phb_id) in
      dt_stacks fuel' (i + 1) pec fdt offset
  end.

Definition pnv_pec_dt_xscom (pec : PnvPhb4PecState) (fdt : fdt_node)
    (xscom_offset : list nat) : outcome (fdt_node * Z) :=
  let pecc := pnv_pec_class_init in
  let nbase := xscom_nest_base pecc pec in
  let pbase := xscom_pci_base pecc pec in
  let reg :=
    cpu_to_be32 nbase ++ cpu_to_be32 (xscom_nest_size pecc)
    ++ cpu_to_be32 pbase ++ cpu_to_be32 (xscom_pci_size pecc) in
  let name := String.append "pbcq@" (fmt_x nbase) in
  let* '(fdt, offset) := _FDT (fdt_add_subnode libfdt_refuses fdt xscom_offset name) in
  let* '(fdt, _) := _FDT (fdt_setprop libfdt_refuses fdt offset "reg" reg 16) in
  let* '(fdt, _) := _FDT (fdt_setprop_cell libfdt_refuses fdt offset "ibm,pec-index" (index pec)) in
  let* '(fdt, _) := _FDT (fdt_setprop_cell libfdt_refuses fdt offset "#address-cells" 1) in
  let* '(fdt, _) := _FDT (fdt_setprop_cell libfdt_refuses fdt offset "#size-cells" 0) in
  let* '(fdt, _) := _FDT (fdt_setprop libfdt_refuses fdt offset "compatible"
                           (chars_of (compat pecc)) (compat_size pecc)) in
  let* fdt := dt_stacks (Z.to_nat (num_stacks pec)) 0 pec fdt offset in
  Returns (fdt, 0).

End Pec.

(** ** The life of a realised PEC

    The memory core hands 8-byte accesses of the two regions to the handlers
    of their [MemoryRegionOps]; the machine asks for the device tree. *)

Inductive xscom_access : Type :=
| XscomRead (b : bank) (addr : Z)
| XscomWrite (b : bank) (addr val : Z).

Definition xscom_step {hdr : Phb4Headers} (pec : PnvPhb4PecState) (a : xscom_access)
  : outcome (PnvPhb4PecState * list log_entry * option Z) :=
  match a with
  | XscomRead b addr =>
      let* v := read (xscom_ops b) pec addr 8 in
      Returns (pec, [], Some v)
  | XscomWrite b addr val =>
      let* '(pec', log) := write (xscom_ops b) pec addr val 8 in
      Returns (pec', log, None)
  end.

Inductive pec_call : Type :=
| CallXscom (a : xscom_access)
| CallDtXscom (libfdt_refuses : libfdt_oracle) (fdt : fdt_node)
    (xscom_offset : list nat).

Section Life.
Context {hdr : Phb4Headers}.
Variable derive_phb_index : Z -> Z -> Z.

Definition pec_step (pec : PnvPhb4PecState) (c : pec_call) : outcome PnvPhb4PecState :=
  match c with
  | CallXscom a =>
      let* '(pec', _, _) := xscom_step pec a in
      Returns pec'
  | CallDtXscom libfdt_refuses fdt xscom_offset =>
      let* _ := pnv_pec_dt_xscom derive_phb_index libfdt_refuses pec fdt
                  xscom_offset in
      Returns pec
  end.

Fixpoint pec_run (pec : PnvPhb4PecState) (calls : list pec_call)
  : outcome PnvPhb4PecState :=
  match calls with
  | [] => Returns pec
  | c :: calls' =>
      let* pec' := pec_step pec c in
      pec_run pec' calls'
  end.

End Life.

(** [stores_to b r c]: the call [c] is a write to bank [b] that decodes to
    register [r]. *)
Definition stores_to (b : bank) (r : Z) (c : pec_call) : Prop :=
  match c with
  | CallXscom (XscomWrite b' addr _) => b' = b /\ uint32_t (Z.shiftr addr 3) = r
  | _ => False
  end.

(** What neither an access nor the export changes: everything but the
    contents of the two banks. *)
Definition same_device (pec pec' : PnvPhb4PecState) : Prop :=
  index pec' = index pec
  /\ chip_id pec' = chip_id pec
  /\ chip_num_pecs pec' = chip_num_pecs pec
  /\ num_stacks pec' = num_stacks pec
  /\ stacks pec' = stacks pec
  /\ nest_regs_mr pec' = nest_regs_mr pec
  /\ pci_regs_mr pec' = pci_regs_mr pec
  /\ length (nest_regs pec') = length (nest_regs pec)
  /\ length (pci_regs pec') = length (pci_regs pec).

(** What the loops of [pnv_pec_realize] over the stacks leave alone. *)
Definition same_but_stacks (pec pec' : PnvPhb4PecState) : Prop :=
  index pec' = index pec
  /\ chip_id pec' = chip_id pec
  /\ chip_num_pecs pec' = chip_num_pecs pec
  /\ num_stacks pec' = num_stacks pec
  /\ nest_regs pec' = nest_regs pec
  /\ pci_regs pec' = pci_regs pec
  /\ nest_regs_mr pec' = nest_regs_mr pec
  /\ pci_regs_mr pec' = pci_regs_mr pec
  /\ length (stacks pec') = length (stacks pec).

(** Every stack count of the table is an admissible length of the live
    prefix of [stacks[]]. *)
Definition stacks_fit {hdr : Phb4Headers} : bool :=
  forallb (fun n => (0 <=? n) && (n <=? PHB4_PEC_MAX_STACKS)) pnv_pec_num_stacks.

(** The index of a PEC that can be realised is an index of the table of
    stack counts. *)
Definition pec_index_valid (pec : PnvPhb4PecState) : bool :=
  (0 <=? index pec) && (index pec <? Z.of_nat (length pnv_pec_num_stacks)).

(** Well-formedness of the XSCOM ranges: a range is not empty, no longer than the
    stride between two PECs, and the range of the last PEC ends inside the
    32-bit XSCOM address space. *)
Definition xscom_ranges_ok {hdr : Phb4Headers} : bool :=
  let last := Z.of_nat (length pnv_pec_num_stacks) - 1 in
  (0 <=? PNV9_XSCOM_PEC_NEST_BASE)
  && (0 <? PNV9_XSCOM_PEC_NEST_SIZE) && (PNV9_XSCOM_PEC_NEST_SIZE <=? 0x400)
  && (PNV9_XSCOM_PEC_NEST_BASE + 0x400 * last + PNV9_XSCOM_PEC_NEST_SIZE <=? 2 ^ 32)
  && (0 <=? PNV9_XSCOM_PEC_PCI_BASE)
  && (0 <? PNV9_XSCOM_PEC_PCI_SIZE) && (PNV9_XSCOM_PEC_PCI_SIZE <=? 0x1000000)
  && (PNV9_XSCOM_PEC_PCI_BASE + 0x1000000 * last + PNV9_XSCOM_PEC_PCI_SIZE <=? 2 ^ 32).

(** ** The exported topology, declaratively *)

(** [plug fdt offset a]: the tree [fdt] with [a] in place of the node at
    [offset]. *)
Definition plug (fdt : fdt_node) (offset : list nat) (a : fdt_node) : fdt_node :=
  update_at fdt offset (fun _ => a).

Definition be32_prop (name : string) (v : Z) : fdt_prop :=
  {| prop_name := name; prop_val := cpu_to_be32 (uint32_t v) |}.

Section Topology.
Context {hdr : Phb4Headers}.
Variable derive_phb_index : Z -> Z -> Z.

(** The node of stack [i]: its compatibility string, its number as [reg],
    and the PHB index derived from the PEC and the stack number; the
    property set last stands first. *)
Definition stack_node (pec : PnvPhb4PecState) (i : Z) : fdt_node :=
  FdtNode (String.append "stack@" (fmt_x (uint32_t i)))
    [ be32_prop "ibm,phb-index" (pnv_phb4_pec_get_phb_id derive_phb_index pec i);
      be32_prop "reg" i;
      {| prop_name := "compatible"; prop_val := chars_of "ibm,power9-phb-stack" |} ]
    [].

(** The node of a PEC: [reg] holds the four big-endian words nest base,
    nest size, pci base, pci size; the stack added last stands first, so
    the stacks stand in descending order. *)
Definition pec_node (pec : PnvPhb4PecState) : fdt_node :=
  FdtNode (String.append "pbcq@" (fmt_x (pnv_pec_xscom_nest_base pec)))
    [ {| prop_name := "compatible"; prop_val := chars_of "ibm,power9-pbcq" |};
      be32_prop "#size-cells" 0;
      be32_prop "#address-cells" 1;
      be32_prop "ibm,pec-index" (index pec);
      {| prop_name := "reg";
         prop_val := cpu_to_be32 (pnv_pec_xscom_nest_base pec)
                     ++ cpu_to_be32 PNV9_XSCOM_PEC_NEST_SIZE
                     ++ cpu_to_be32 (pnv_pec_xscom_pci_base pec)
                     ++ cpu_to_be32 PNV9_XSCOM_PEC_PCI_SIZE |} ]
    (stack_node pec <$> reverse (seqZ 0 (num_stacks pec))).

End Topology.

(** ** A POWER9 chip, for the examples *)

(** A numbering of the PHBs for the examples: the stacks of the three PECs
    of a chip counted in order (PEC0: 0; PEC1: 1, 2; PEC2: 3, 4, 5). *)
Definition consecutive_phb_index (index stack_index : Z) : Z :=
  index * (index + 1) / 2 + stack_index.

(** A [sysbus_realize] that always succeeds. *)
Definition sysbus_realize_ok (p : PnvPHB4) : option Error := None.

(** PEC2 of chip 0, created and realised. *)
Definition pec2_created : PnvPhb4PecState := @pec_create pnv9_headers 0 2 3.

Definition pec2_realized : PnvPhb4PecState :=
  Eval vm_compute in
  match @pnv_pec_realize pnv9_headers true sysbus_realize_ok consecutive_phb_index
          pec2_created with
  | Returns (pec, _) => pec
  | _ => pec2_created
  end.

(** A device tree with an empty "xscom" node as its only subnode. *)
Definition example_fdt : fdt_node :=
  FdtNode "" [] [ FdtNode "xscom@603fc00000000" [] [] ].

(** A [sysbus_realize] that refuses the PHB of index 4. *)
Definition sysbus_realize_not_4 (p : PnvPHB4) : option Error :=
  if phb_index p =? 4 then Some {| error_msg := "PHB 4 cannot be realized" |}
  else None.

(** PEC2 after a realisation that failed on its second stack. *)
Definition pec2_failed : PnvPhb4PecState :=
  Eval vm_compute in
  match @pnv_pec_realize pnv9_headers true sysbus_realize_not_4 consecutive_phb_index
          pec2_created with
  | Returns (pec, _) => pec
  | _ => pec2_created
  end.

(** PEC1 of chip 0, created and realised. *)
Definition pec1_realized : PnvPhb4PecState :=
  Eval vm_compute in
  match @pnv_pec_realize pnv9_headers true sysbus_realize_ok consecutive_phb_index
          (@pec_create pnv9_headers 0 1 3) with
  | Returns (pec, _) => pec
  | _ => pec2_created
  end.

(** A blob with room for one more subnode and nothing else: it refuses
    every [fdt_setprop]. *)
Definition no_room_for_props : libfdt_oracle :=
  fun _ call =>
    match call with
    | FdtAddSubnode _ _ => None
    | FdtSetprop _ _ _ => Some FDT_ERR_NOSPACE
    end.

(** A device tree with more in it: the "xscom" node has a property and a
    subnode of its own, and a sibling "cpus". *)
Definition busy_xscom : fdt_node :=
  FdtNode "xscom@603fc00000000"
    [ {| prop_name := "compatible"; prop_val := chars_of "ibm,xscom" |} ]
    [ FdtNode "chiptod@40000"
        [ {| prop_name := "reg"; prop_val := [0; 4; 0; 0; 0; 0; 0; 0x34] |} ] [] ].

Definition busy_fdt : fdt_node :=
  FdtNode "" [] [ busy_xscom; FdtNode "cpus" [] [ FdtNode "PowerPC,POWER9@0" [] [] ] ].

(** The busy tree after the export of PEC2. *)
Definition busy_fdt_pec2 : fdt_node :=
  Eval vm_compute in
  match @pnv_pec_dt_xscom pnv9_headers consecutive_phb_index no_refusal pec2_realized
          busy_fdt [0%nat] with
  | Returns (fdt, _) => fdt
  | _ => busy_fdt
  end.

(** ** Further notions used in the properties *)

(** The array lengths of the headers are not negative. *)
Definition header_counts_ok {hdr : Phb4Headers} : bool :=
  (0 <=? PHB4_PEC_NEST_REGS_COUNT) && (0 <=? PHB4_PEC_PCI_REGS_COUNT)
  && (0 <=? PHB4_PEC_MAX_STACKS).

(** The calls that cannot go wrong: a write at any address, and a read
    inside the window of its bank (the only reads that the memory core lets
    through to a region of [bank_regs_count] registers). *)
Definition access_safe {hdr : Phb4Headers} (c : pec_call) : Prop :=
  match c with
  | CallXscom (XscomRead b addr) => 0 <= addr < 8 * bank_regs_count b
  | CallXscom (XscomWrite _ _ _) => True
  | CallDtXscom _ _ _ => False
  end.

(** The state that a write handler leaves, without what it logged. *)
Definition state_after (o : outcome (PnvPhb4PecState * list log_entry))
  : outcome PnvPhb4PecState :=
  let* '(pec, _) := o in Returns pec.

(** The value of a big-endian byte string, and the 32-bit words of a
    property as a device-tree reader takes them. *)
Definition be_to_cpu (bytes : list Z) : Z :=
  fold_left (fun acc b => acc * 256 + b) bytes 0.

Fixpoint be32_words (bytes : list Z) : list Z :=
  match bytes with
  | b3 :: b2 :: b1 :: b0 :: rest => be_to_cpu [b3; b2; b1; b0] :: be32_words rest
  | _ => []
  end.

(** Two offsets part ways: neither node is inside the subtree of the
    other. *)
Definition offsets_diverge (p q : list nat) : Prop :=
  exists r i j p' q', i <> j /\ p = r ++ i :: p' /\ q = r ++ j :: q'.

(** The name that [pnv_pec_dt_xscom] gives to the node of a PEC. *)
Definition pbcq_name {hdr : Phb4Headers} (pec : PnvPhb4PecState) : string :=
  String.append "pbcq@" (fmt_x (pnv_pec_xscom_nest_base pec)).

(** The two calls of [pnv_xscom_region_init] in [pnv_pec_realize]. *)
Definition nest_region (pec : PnvPhb4PecState) {hdr : Phb4Headers} : MemoryRegion :=
  {| mr_ops := Nest;
     mr_name := concat_str
       [ "xscom-pec-"%string; fmt_d (int_of_uint32 (chip_id pec)); "."%string;
         fmt_d (int_of_uint32 (index pec)); "-nest"%string ];
     mr_size := PHB4_PEC_NEST_REGS_COUNT |}.

Definition pci_region (pec : PnvPhb4PecState) {hdr : Phb4Headers} : MemoryRegion :=
  {| mr_ops := Pci;
     mr_name := concat_str
       [ "xscom-pec-"%string; fmt_d (int_of_uint32 (chip_id pec)); "."%string;
         fmt_d (int_of_uint32 (index pec)); "-pci"%string ];
     mr_size := PHB4_PEC_PCI_REGS_COUNT |}.

(** * Properties *)

(** ** Arrays and machine integers *)

Lemma obind_returns {A B : Type} (m : outcome A) (k : A -> outcome B) (b : B) :
  obind m k = Returns b -> exists a, m = Returns a /\ k a = Returns b.
Proof. destruct m as [a| |]; simpl; intros H; try discriminate; eauto. Qed.

Lemma uint32_t_range (z : Z) : 0 <= uint32_t z < 2 ^ 32.
Proof. unfold uint32_t. apply Z.mod_pos_bound. lia. Qed.

Lemma uint32_t_small (z : Z) : 0 <= z < 2 ^ 32 -> uint32_t z = z.
Proof. intros H. unfold uint32_t. apply Z.mod_small. exact H. Qed.

Lemma array_get_lookup {A : Type} (a : list A) (i : Z) (v : A) :
  0 <= i -> a !! Z.to_nat i = Some v -> array_get a i = Returns v.
Proof.
  intros Hi Hv. unfold array_get. rewrite Hv.
  destruct (0 <=? i) eqn:E; [reflexivity | lia].
Qed.

Lemma array_get_returns {A : Type} (a : list A) (i : Z) (v : A) :
  array_get a i = Returns v ->
  0 <= i < Z.of_nat (length a) /\ a !! Z.to_nat i = Some v.
Proof.
  unfold array_get. destruct (a !! Z.to_nat i) as [w|] eqn:E; [|discriminate].
  destruct (0 <=? i) eqn:Hi; [|discriminate].
  intros [= ->]. apply lookup_lt_Some in E as Hlt. split; [lia | reflexivity].
Qed.

Lemma array_get_in {A : Type} (a : list A) (i : Z) :
  0 <= i < Z.of_nat (length a) ->
  exists v, a !! Z.to_nat i = Some v /\ array_get a i = Returns v.
Proof.
  intros Hi.
  destruct (lookup_lt_is_Some_2 a (Z.to_nat i)) as [v Hv]; [lia|].
  exists v. split; [exact Hv | apply array_get_lookup; [lia | exact Hv]].
Qed.

Lemma array_get_out {A : Type} (a : list A) (i : Z) :
  Z.of_nat (length a) <= i -> array_get a i = Undefined.
Proof.
  intros Hi. unfold array_get.
  rewrite (proj2 (lookup_ge_None a (Z.to_nat i))); [reflexivity | lia].
Qed.

Lemma array_set_in {A : Type} (a : list A) (i : Z) (v : A) :
  0 <= i < Z.of_nat (length a) ->
  array_set a i v = Returns (<[Z.to_nat i := v]> a).
Proof.
  intros Hi. unfold array_set.
  destruct (0 <=? i) eqn:E1; [|lia].
  destruct (i <? Z.of_nat (length a)) eqn:E2; [reflexivity | lia].
Qed.

Lemma array_set_returns {A : Type} (a a' : list A) (i : Z) (v : A) :
  array_set a i v = Returns a' ->
  0 <= i < Z.of_nat (length a) /\ a' = <[Z.to_nat i := v]> a.
Proof.
  unfold array_set.
  destruct (0 <=? i) eqn:E1; destruct (i <? Z.of_nat (length a)) eqn:E2;
    simpl; intros [= <-] || discriminate.
  split; [lia | reflexivity].
Qed.

Lemma array_get_set_eq {A : Type} (a : list A) (i : Z) (v : A) :
  0 <= i < Z.of_nat (length a) ->
  array_get (<[Z.to_nat i := v]> a) i = Returns v.
Proof.
  intros Hi. apply array_get_lookup; [lia|].
  apply list_lookup_insert_eq. lia.
Qed.

(** ** The register banks *)

Section RegisterBankFacts.
Context {hdr : Phb4Headers}.

(** The [switch] of a write handler is a membership test in the list of
    its [case] labels. *)
Lemma write_unfold (b : bank) (pec : PnvPhb4PecState) (addr val size : Z) :
  write (xscom_ops b) pec addr val size =
  let reg := uint32_t (Z.shiftr addr 3) in
  if existsb (Z.eqb reg) (write_whitelist b) then
    let* regs := array_set (bank_regs b pec) reg val in
    Returns (set_bank_regs b pec regs, [])
  else Returns (pec, [phb_pec_error pec (write_func b) addr val]).
Proof.
  destruct b; cbn [xscom_ops write pnv_pec_nest_xscom_ops pnv_pec_pci_xscom_ops];
    unfold pnv_pec_nest_xscom_write, pnv_pec_pci_xscom_write;
    cbn [write_whitelist existsb bank_regs set_bank_regs write_func];
    rewrite <- ?orb_assoc, orb_false_r; reflexivity.
Qed.

Lemma read_unfold (b : bank) (pec : PnvPhb4PecState) (addr size : Z) :
  read (xscom_ops b) pec addr size =
  array_get (bank_regs b pec) (uint32_t (Z.shiftr addr 3)).
Proof. destruct b; reflexivity. Qed.

Lemma whitelisted_iff (b : bank) (r : Z) :
  existsb (Z.eqb r) (write_whitelist b) = true <-> In r (write_whitelist b).
Proof.
  rewrite existsb_exists. split.
  - intros [x [Hx E]]. apply Z.eqb_eq in E. subst x. exact Hx.
  - intros H. exists r. split; [exact H | apply Z.eqb_refl].
Qed.

Lemma not_whitelisted (b : bank) (r : Z) :
  ~ In r (write_whitelist b) -> existsb (Z.eqb r) (write_whitelist b) = false.
Proof.
  intros H. destruct (existsb (Z.eqb r) (write_whitelist b)) eqn:E; [|reflexivity].
  apply whitelisted_iff in E. contradiction.
Qed.

Lemma whitelisted_in_bounds (b : bank) (r : Z) :
  labels_in_bounds = true -> In r (write_whitelist b) ->
  0 <= r < bank_regs_count b.
Proof.
  unfold labels_in_bounds. intros H Hr.
  apply andb_true_iff in H as [Hn Hp].
  destruct b; [pose proof (proj1 (forallb_forall _ _) Hn r Hr) as Hb
              |pose proof (proj1 (forallb_forall _ _) Hp r Hr) as Hb];
    cbn beta in Hb; apply andb_true_iff in Hb as [H1 H2];
    cbn [bank_regs_count]; lia.
Qed.

Lemma pec_sized_bank (b : bank) (pec : PnvPhb4PecState) :
  pec_sized pec = true -> Z.of_nat (length (bank_regs b pec)) = bank_regs_count b.
Proof.
  unfold pec_sized. intros H.
  apply andb_true_iff in H as [H Hs]. apply andb_true_iff in H as [Hn Hp].
  destruct b; cbn [bank_regs bank_regs_count]; lia.
Qed.

Lemma pec_sized_stacks (pec : PnvPhb4PecState) :
  pec_sized pec = true -> Z.of_nat (length (stacks pec)) = PHB4_PEC_MAX_STACKS.
Proof.
  unfold pec_sized. intros H. apply andb_true_iff in H as [_ Hs]. lia.
Qed.

(** A write to a whitelisted register stores the value. *)
Lemma write_stored (b : bank) (pec : PnvPhb4PecState) (addr val size : Z) :
  labels_in_bounds = true -> pec_sized pec = true ->
  In (uint32_t (Z.shiftr addr 3)) (write_whitelist b) ->
  write (xscom_ops b) pec addr val size =
  Returns (set_bank_regs b pec
             (<[Z.to_nat (uint32_t (Z.shiftr addr 3)) := val]> (bank_regs b pec)), []).
Proof.
  intros Hl Hs Hin. rewrite write_unfold. cbn zeta.
  rewrite (proj2 (whitelisted_iff b _) Hin).
  rewrite array_set_in; [reflexivity|].
  rewrite (pec_sized_bank b pec Hs). apply whitelisted_in_bounds; assumption.
Qed.

(** A write to any other register logs and leaves the state alone. *)
Lemma write_rejected (b : bank) (pec : PnvPhb4PecState) (addr val size : Z) :
  ~ In (uint32_t (Z.shiftr addr 3)) (write_whitelist b) ->
  write (xscom_ops b) pec addr val size =
  Returns (pec, [phb_pec_error pec (write_func b) addr val]).
Proof.
  intros Hin. rewrite write_unfold. cbn zeta.
  rewrite (not_whitelisted b _ Hin). reflexivity.
Qed.

Lemma bank_regs_set_same (b : bank) (pec : PnvPhb4PecState) (r : list Z) :
  bank_regs b (set_bank_regs b pec r) = r.
Proof. destruct b; reflexivity. Qed.

Lemma bank_regs_set_other (b : bank) (pec : PnvPhb4PecState) (r : list Z) :
  bank_regs (other_bank b) (set_bank_regs b pec r) = bank_regs (other_bank b) pec.
Proof. destruct b; reflexivity. Qed.

End RegisterBankFacts.

Section RegisterBankClaims.
Context {hdr : Phb4Headers}.

(** C1. In either bank, a write to a register of the bank's whitelist
    followed by a read of the same register returns the value written. *)
Theorem xscom_write_then_read (b : bank) (pec : PnvPhb4PecState) (addr v : Z) :
  labels_in_bounds = true ->
  pec_sized pec = true ->
  In (uint32_t (Z.shiftr addr 3)) (write_whitelist b) ->
  exists pec',
    write (xscom_ops b) pec addr v 8 = Returns (pec', [])
    /\ read (xscom_ops b) pec' addr 8 = Returns v.
Proof.
  intros Hl Hs Hin.
  eexists. split; [apply write_stored; assumption|].
  rewrite read_unfold, bank_regs_set_same.
  apply array_get_set_eq.
  rewrite (pec_sized_bank b pec Hs). apply whitelisted_in_bounds; assumption.
Qed.

(** C2. In either bank, a write to a register outside of the whitelist
    returns normally, leaves the state (hence the value that any read
    returns) as it was, and logs exactly one guest error, whose text
    carries the address and the value. *)
Theorem xscom_write_not_whitelisted (b : bank) (pec : PnvPhb4PecState) (addr v : Z) :
  ~ In (uint32_t (Z.shiftr addr 3)) (write_whitelist b) ->
  exists pec' e,
    write (xscom_ops b) pec addr v 8 = Returns (pec', [e])
    /\ pec' = pec
    /\ read (xscom_ops b) pec' addr 8 = read (xscom_ops b) pec addr 8
    /\ log_category e = LOG_GUEST_ERROR
    /\ log_text e = concat_str
         [ "phb4_pec["%string; fmt_d (int_of_uint32 (chip_id pec)); ":"%string;
           fmt_d (int_of_uint32 (index pec)); "]: "%string; write_func b;
           " @0x"%string; fmt_x addr; "="%string; fmt_x v; nl; nl ].
Proof.
  intros Hin. exists pec, (phb_pec_error pec (write_func b) addr v).
  split; [apply write_rejected; assumption|].
  repeat split; reflexivity.
Qed.

(** C3, as amended. The whitelist of the nest bank is the enumerated set
    together with the drop-priority-control register, that of the pci bank
    is hardware-config and read-stack-override; a write to a register of
    the whitelist is stored, a write to any other register is rejected
    with a diagnostic. *)
Theorem write_whitelist_exact (b : bank) (pec : PnvPhb4PecState) (addr v : Z) :
  labels_in_bounds = true ->
  pec_sized pec = true ->
  let r := uint32_t (Z.shiftr addr 3) in
  (forall x, In x (write_whitelist Nest) <->
             x = PEC_NEST_DROP_PRIO_CTRL \/ In x (spec_whitelist Nest))
  /\ write_whitelist Pci = [PEC_PCI_PBAIB_HW_CONFIG; PEC_PCI_PBAIB_READ_STK_OVR]
  /\ (In r (write_whitelist b) ->
      write (xscom_ops b) pec addr v 8 =
      Returns (set_bank_regs b pec (<[Z.to_nat r := v]> (bank_regs b pec)), []))
  /\ (~ In r (write_whitelist b) ->
      write (xscom_ops b) pec addr v 8 =
      Returns (pec, [phb_pec_error pec (write_func b) addr v])).
Proof.
  intros Hl Hs r. split; [|split; [reflexivity|split]].
  - intros x. cbn [write_whitelist spec_whitelist In]. intuition congruence.
  - intros Hin. apply write_stored; assumption.
  - intros Hin. apply write_rejected; assumption.
Qed.

(** C10. A write to a whitelisted register changes that register of that
    bank and nothing else: not another register of the bank, not the other
    bank, not the rest of the controller; and a read changes nothing. *)
Theorem xscom_frame (b : bank) (pec : PnvPhb4PecState) (addr v : Z) :
  labels_in_bounds = true ->
  pec_sized pec = true ->
  In (uint32_t (Z.shiftr addr 3)) (write_whitelist b) ->
  (exists pec',
     xscom_step pec (XscomWrite b addr v) = Returns (pec', [], None)
     /\ (forall i : nat, i <> Z.to_nat (uint32_t (Z.shiftr addr 3)) ->
           bank_regs b pec' !! i = bank_regs b pec !! i)
     /\ bank_regs (other_bank b) pec' = bank_regs (other_bank b) pec
     /\ index pec' = index pec
     /\ chip_id pec' = chip_id pec
     /\ chip_num_pecs pec' = chip_num_pecs pec
     /\ num_stacks pec' = num_stacks pec
     /\ stacks pec' = stacks pec
     /\ nest_regs_mr pec' = nest_regs_mr pec
     /\ pci_regs_mr pec' = pci_regs_mr pec)
  /\ (forall b' addr' pec'' log ret,
        xscom_step pec (XscomRead b' addr') = Returns (pec'', log, ret) ->
        pec'' = pec /\ log = []).
Proof.
  intros Hl Hs Hin. split.
  - eexists. split.
    + cbn [xscom_step]. rewrite (write_stored b pec addr v 8 Hl Hs Hin). reflexivity.
    + split.
      * intros i Hi. rewrite bank_regs_set_same.
        apply list_lookup_insert_ne. congruence.
      * split; [apply bank_regs_set_other|].
        destruct b; repeat split; reflexivity.
  - intros b' addr' pec'' log ret. cbn [xscom_step].
    destruct (read (xscom_ops b') pec addr' 8); cbn [obind]; intros [= <- <- _] || discriminate.
    split; reflexivity.
Qed.

End RegisterBankClaims.

(** ** Runs of calls *)

Section RunFacts.
Context {hdr : Phb4Headers}.
Variable derive_phb_index : Z -> Z -> Z.

Lemma same_device_refl (pec : PnvPhb4PecState) : same_device pec pec.
Proof. repeat split. Qed.

Lemma same_device_trans (p q r : PnvPhb4PecState) :
  same_device p q -> same_device q r -> same_device p r.
Proof. unfold same_device. intros H1 H2. intuition congruence. Qed.

Lemma write_returns (b : bank) (pec pec' : PnvPhb4PecState) (addr val size : Z)
    (log : list log_entry) :
  write (xscom_ops b) pec addr val size = Returns (pec', log) ->
  (pec' = pec /\ ~ In (uint32_t (Z.shiftr addr 3)) (write_whitelist b))
  \/ (pec' = set_bank_regs b pec
               (<[Z.to_nat (uint32_t (Z.shiftr addr 3)) := val]> (bank_regs b pec))
      /\ In (uint32_t (Z.shiftr addr 3)) (write_whitelist b)).
Proof.
  rewrite write_unfold. cbn zeta.
  destruct (existsb _ (write_whitelist b)) eqn:E.
  - intros H. apply obind_returns in H as [regs [Hset [= <- _]]].
    apply array_set_returns in Hset as [_ ->]. right.
    split; [reflexivity | apply whitelisted_iff; exact E].
  - intros [= <- _]. left. split; [reflexivity|].
    intros Hin. apply whitelisted_iff in Hin. congruence.
Qed.

Lemma pec_step_same_device (pec pec' : PnvPhb4PecState) (c : pec_call) :
  pec_step derive_phb_index pec c = Returns pec' -> same_device pec pec'.
Proof.
  destruct c as [[b addr | b addr val] | o fdt off]; cbn [pec_step xscom_step].
  - destruct (read (xscom_ops b) pec addr 8); cbn [obind];
      intros [= <-] || discriminate. apply same_device_refl.
  - destruct (write (xscom_ops b) pec addr val 8) as [[p log]| |] eqn:E; cbn [obind];
      intros [= <-] || discriminate.
    apply write_returns in E as [[-> _] | [-> _]]; [apply same_device_refl|].
    destruct b; repeat split; cbn; apply length_insert.
  - destruct (pnv_pec_dt_xscom derive_phb_index o pec fdt off); cbn [obind];
      intros [= <-] || discriminate. apply same_device_refl.
Qed.

Lemma pec_run_same_device (calls : list pec_call) (pec pec' : PnvPhb4PecState) :
  pec_run derive_phb_index pec calls = Returns pec' -> same_device pec pec'.
Proof.
  revert pec. induction calls as [|c calls IH]; intros pec; cbn [pec_run].
  - intros [= <-]. apply same_device_refl.
  - intros H. apply obind_returns in H as [q [Hq Hrun]].
    eapply same_device_trans; [eapply pec_step_same_device; exact Hq | apply IH; exact Hrun].
Qed.

(** A register that no call stores to keeps its value. *)
Lemma pec_step_keeps (b : bank) (r : Z) (pec pec' : PnvPhb4PecState) (c : pec_call) :
  0 <= r ->
  pec_step derive_phb_index pec c = Returns pec' ->
  ~ stores_to b r c ->
  bank_regs b pec' !! Z.to_nat r = bank_regs b pec !! Z.to_nat r.
Proof.
  intros Hr.
  destruct c as [[b' addr | b' addr val] | o fdt off]; cbn [pec_step xscom_step stores_to].
  - destruct (read (xscom_ops b') pec addr 8); cbn [obind];
      intros [= <-] || discriminate. reflexivity.
  - destruct (write (xscom_ops b') pec addr val 8) as [[p log]| |] eqn:E; cbn [obind];
      intros [= <-] || discriminate.
    intros Hns.
    apply write_returns in E as [[-> _] | [-> _]]; [reflexivity|].
    pose proof (uint32_t_range (Z.shiftr addr 3)) as Hrange.
    destruct b, b'; cbn [bank_regs set_bank_regs set_nest_regs set_pci_regs
                         nest_regs pci_regs]; try reflexivity;
      apply list_lookup_insert_ne; intros Heq; apply Hns;
      (split; [reflexivity | lia]).
  - destruct (pnv_pec_dt_xscom derive_phb_index o pec fdt off); cbn [obind];
      intros [= <-] || discriminate. reflexivity.
Qed.

Lemma pec_run_keeps (b : bank) (r : Z) (calls : list pec_call)
    (pec pec' : PnvPhb4PecState) :
  0 <= r ->
  pec_run derive_phb_index pec calls = Returns pec' ->
  Forall (fun c => ~ stores_to b r c) calls ->
  bank_regs b pec' !! Z.to_nat r = bank_regs b pec !! Z.to_nat r.
Proof.
  intros Hr. revert pec. induction calls as [|c calls IH]; intros pec; cbn [pec_run].
  - intros [= <-] _. reflexivity.
  - intros H Hall. apply obind_returns in H as [q [Hq Hrun]].
    inversion Hall as [|? ? Hc Hrest]; subst.
    rewrite (IH q Hrun Hrest). eapply pec_step_keeps; eassumption.
Qed.

End RunFacts.

Section ReadClaims.
Context {hdr : Phb4Headers}.
Variable derive_phb_index : Z -> Z -> Z.

(** C6, as amended. In either bank, a read at a byte offset inside the
    bank's window (below 8 times the length of the bank) decodes the
    register [offset >> 3] and returns what that register holds; this is
    zero for a register that nothing stored to since the bank was
    zero-initialised. *)
Theorem xscom_read_in_window (b : bank) (pec : PnvPhb4PecState) (addr : Z) :
  regs_count_ok = true ->
  pec_sized pec = true ->
  0 <= addr < 8 * bank_regs_count b ->
  (exists v,
     bank_regs b pec !! Z.to_nat (Z.shiftr addr 3) = Some v
     /\ read (xscom_ops b) pec addr 8 = Returns v)
  /\ (forall pec0 calls,
        bank_regs b pec0 = replicate (Z.to_nat (bank_regs_count b)) 0 ->
        pec_run derive_phb_index pec0 calls = Returns pec ->
        Forall (fun c => ~ stores_to b (Z.shiftr addr 3) c) calls ->
        read (xscom_ops b) pec addr 8 = Returns 0).
Proof.
  intros Hc Hs Haddr.
  assert (Hshift : 0 <= Z.shiftr addr 3 < bank_regs_count b).
  { rewrite Z.shiftr_div_pow2 by lia. change (2 ^ 3) with 8.
    split; [apply Z.div_pos; lia | apply Z.div_lt_upper_bound; lia]. }
  assert (Hcount : bank_regs_count b <= 2 ^ 32).
  { unfold regs_count_ok in Hc. apply andb_true_iff in Hc as [H1 H2].
    destruct b; cbn [bank_regs_count]; lia. }
  assert (Hdec : uint32_t (Z.shiftr addr 3) = Z.shiftr addr 3)
    by (apply uint32_t_small; lia).
  pose proof (pec_sized_bank b pec Hs) as Hlen.
  split.
  - rewrite read_unfold, Hdec. apply array_get_in. lia.
  - intros pec0 calls Hzero Hrun Hall.
    rewrite read_unfold, Hdec. apply array_get_lookup; [lia|].
    rewrite (pec_run_keeps derive_phb_index b _ calls pec0 pec (proj1 Hshift) Hrun Hall).
    rewrite Hzero. apply lookup_replicate_2. lia.
Qed.

End ReadClaims.

(** C6 fails as stated: on POWER9 the nest bank has 15 registers; a read at
    byte offset 0x78 indexes the array at 15, past its end, and returns no
    defined value; and a read at byte offset 2^35, whose [offset >> 3] is
    2^32, returns what register 0 holds, here 0x1234. *)
Lemma xscom_read_outside_window :
  let pec := @pec_create pnv9_headers 0 0 3 in
  pnv_pec_nest_xscom_read pec 0x78 8 = Undefined
  /\ Z.shiftr (2 ^ 35) 3 = 2 ^ 32
  /\ exists pec',
       @pnv_pec_nest_xscom_write pnv9_headers pec 0 0x1234 8 = Returns (pec', [])
       /\ pnv_pec_nest_xscom_read pec' (2 ^ 35) 8 = Returns 0x1234.
Proof.
  cbv zeta. split; [reflexivity|]. split; [reflexivity|].
  eexists. split; reflexivity.
Qed.

(** ** Realisation *)

Section RealizeFacts.
Context {hdr : Phb4Headers}.
Variable defaults_enabled : bool.
Variable sysbus_realize : PnvPHB4 -> option Error.
Variable derive_phb_index : Z -> Z -> Z.

#[local] Abbreviation qdev_realize' :=
  (qdev_realize defaults_enabled sysbus_realize derive_phb_index).
#[local] Abbreviation create_stacks' :=
  (create_stacks defaults_enabled sysbus_realize derive_phb_index).
#[local] Abbreviation pnv_pec_realize' :=
  (pnv_pec_realize defaults_enabled sysbus_realize derive_phb_index).
#[local] Abbreviation pnv_pec_stk_realize' :=
  (pnv_pec_stk_realize defaults_enabled sysbus_realize derive_phb_index).

Lemma same_but_stacks_refl (pec : PnvPhb4PecState) : same_but_stacks pec pec.
Proof. repeat split. Qed.

Lemma same_but_stacks_trans (p q r : PnvPhb4PecState) :
  same_but_stacks p q -> same_but_stacks q r -> same_but_stacks p r.
Proof. unfold same_but_stacks. intros H1 H2. intuition congruence. Qed.

Lemma same_but_stacks_set (pec : PnvPhb4PecState) (i : nat) (s : PnvPhb4PecStack) :
  same_but_stacks pec (set_stacks pec (<[i := s]> (stacks pec))).
Proof. repeat split. cbn. apply length_insert. Qed.

(** The realisation of a stack reads the index and the chip of its PEC,
    nothing else. *)
Lemma qdev_realize_config (p q : PnvPhb4PecState) (s : PnvPhb4PecStack) :
  index p = index q -> chip_id p = chip_id q ->
  qdev_realize' p s = qdev_realize' q s.
Proof.
  intros Hi Hc.
  unfold qdev_realize, pnv_pec_stk_realize, pnv_pec_stk_default_phb_realize,
    pnv_phb4_pec_get_phb_id.
  rewrite Hi, Hc. reflexivity.
Qed.

(** The first loop terminates without leaving the array, touches the
    stacks [i .. i + fuel) only, and realises each of them from its
    number. *)
Lemma create_stacks_spec (fuel : nat) :
  forall (i : Z) (pec : PnvPhb4PecState),
    0 <= i -> i + Z.of_nat fuel <= Z.of_nat (length (stacks pec)) ->
    exists pec' j err,
      create_stacks' fuel i pec = Returns (pec', j, err)
      /\ same_but_stacks pec pec'
      /\ (forall k : nat, (k < Z.to_nat i)%nat \/ (Z.to_nat i + fuel <= k)%nat ->
            stacks pec' !! k = stacks pec !! k)
      /\ (err = None ->
          j = i + Z.of_nat fuel
          /\ forall k : Z, i <= k < i + Z.of_nat fuel ->
               exists old,
                 stacks pec !! Z.to_nat k = Some old
                 /\ qdev_realize' pec (set_stk_pec (set_stack_no old k))
                    = (set_stk_realized
                         (fst (pnv_pec_stk_realize defaults_enabled sysbus_realize
                                 derive_phb_index pec (set_stk_pec (set_stack_no old k)))),
                       None)
                 /\ stacks pec' !! Z.to_nat k =
                    Some (fst (qdev_realize' pec (set_stk_pec (set_stack_no old k))))).
Proof.
  induction fuel as [|fuel IH]; intros i pec Hi Hlen.
  - exists pec, i, None. cbn [create_stacks].
    split; [reflexivity|]. split; [apply same_but_stacks_refl|].
    split; [reflexivity|]. intros _. split; [lia|]. intros k Hk. lia.
  - cbn [create_stacks].
    destruct (array_get_in (stacks pec) i) as [old [Hold Hget]]; [lia|].
    rewrite Hget. cbn [obind].
    destruct (qdev_realize' pec (set_stk_pec (set_stack_no old i))) as [stack' [e|]] eqn:Hq.
    + rewrite array_set_in by lia. cbn [obind].
      eexists _, i, (Some e). split; [reflexivity|].
      split; [apply same_but_stacks_set|].
      split; [|discriminate].
      intros k Hk. cbn [stacks set_stacks]. apply list_lookup_insert_ne. lia.
    + rewrite array_set_in by lia. cbn [obind].
      set (pec1 := set_stacks pec (<[Z.to_nat i := stack']> (stacks pec))).
      destruct (IH (i + 1) pec1) as [pec' [j [err [Hrun [Hsame [Hout Hin]]]]]].
      { lia. }
      { unfold pec1. cbn [stacks set_stacks]. rewrite length_insert. lia. }
      exists pec', j, err. split; [exact Hrun|].
      split; [eapply same_but_stacks_trans; [apply same_but_stacks_set | exact Hsame]|].
      split.
      * intros k Hk. rewrite Hout by lia.
        unfold pec1. cbn [stacks set_stacks]. apply list_lookup_insert_ne. lia.
      * intros Herr. destruct (Hin Herr) as [Hj Hall]. split; [lia|].
        intros k Hk. destruct (Z.eq_dec k i) as [->|Hne].
        -- exists old. split; [exact Hold|].
           assert (Hq' := Hq). unfold qdev_realize in Hq'.
           destruct (pnv_pec_stk_realize _ _ _ pec _) as [s0 [e0|]] eqn:Hr;
             [discriminate|]. inversion Hq'; subst stack'.
           split.
           ++ rewrite Hq. cbn [fst]. reflexivity.
           ++ rewrite Hq. cbn [fst]. rewrite Hout by lia.
              unfold pec1. cbn [stacks set_stacks].
              apply list_lookup_insert_eq. lia.
        -- destruct (Hall k) as [old' [Hold' [Hq1 Hnew]]]; [lia|].
           exists old'.
           assert (Hcfg : forall s, qdev_realize' pec1 s = qdev_realize' pec s)
             by (intros s0; apply qdev_realize_config; reflexivity).
           split.
           ++ rewrite <- Hold'. unfold pec1. cbn [stacks set_stacks].
              symmetry. apply list_lookup_insert_ne. lia.
           ++ rewrite <- Hcfg. split; [|exact Hnew].
              rewrite Hq1. f_equal.
Qed.

Lemma unparent_stacks_spec (fuel : nat) :
  forall (i : Z) (pec : PnvPhb4PecState),
    0 <= i -> i + Z.of_nat fuel <= Z.of_nat (length (stacks pec)) ->
    exists pec',
      unparent_stacks fuel i pec = Returns pec'
      /\ same_but_stacks pec pec'
      /\ (forall k : nat, (k < Z.to_nat i)%nat -> stacks pec' !! k = stacks pec !! k).
Proof.
  induction fuel as [|fuel IH]; intros i pec Hi Hlen.
  - exists pec. split; [reflexivity|]. split; [apply same_but_stacks_refl | reflexivity].
  - cbn [unparent_stacks].
    destruct (array_get_in (stacks pec) i) as [old [Hold Hget]]; [lia|].
    rewrite Hget. cbn [obind]. rewrite array_set_in by lia. cbn [obind].
    set (pec1 := set_stacks pec (<[Z.to_nat i := object_unparent old]> (stacks pec))).
    destruct (IH (i + 1) pec1) as [pec' [Hrun [Hsame Hlow]]].
    { lia. }
    { unfold pec1. cbn [stacks set_stacks]. rewrite length_insert. lia. }
    exists pec'. split; [exact Hrun|].
    split; [eapply same_but_stacks_trans; [apply same_but_stacks_set | exact Hsame]|].
    intros k Hk. rewrite Hlow by lia.
    unfold pec1. cbn [stacks set_stacks]. apply list_lookup_insert_ne. lia.
Qed.

Lemma table_entry_fits (i : nat) (n : Z) :
  stacks_fit = true -> pnv_pec_num_stacks !! i = Some n ->
  0 <= n <= PHB4_PEC_MAX_STACKS.
Proof.
  unfold stacks_fit. intros Hfit Hn.
  apply list_elem_of_lookup_2, list_elem_of_In in Hn.
  pose proof (proj1 (forallb_forall _ _) Hfit n Hn) as Hb. cbn beta in Hb.
  apply andb_true_iff in Hb as [H1 H2]. lia.
Qed.

(** What [pnv_pec_realize] does for a valid index. *)
Lemma realize_spec (pec : PnvPhb4PecState) (n : Z) :
  stacks_fit = true ->
  pec_sized pec = true ->
  0 <= index pec < chip_num_pecs pec ->
  pnv_pec_num_stacks !! Z.to_nat (index pec) = Some n ->
  exists pec' err,
    pnv_pec_realize' pec = Returns (pec', err)
    /\ index pec' = index pec
    /\ chip_id pec' = chip_id pec
    /\ chip_num_pecs pec' = chip_num_pecs pec
    /\ num_stacks pec' = n
    /\ nest_regs pec' = nest_regs pec
    /\ pci_regs pec' = pci_regs pec
    /\ length (stacks pec') = length (stacks pec)
    /\ (err = None ->
        forall k : Z, 0 <= k < n ->
          exists old,
            stacks pec !! Z.to_nat k = Some old
            /\ stacks pec' !! Z.to_nat k =
               Some (set_stk_realized
                       (fst (pnv_pec_stk_realize' pec (set_stk_pec (set_stack_no old k)))))).
Proof.
  intros Hfit Hs Hidx Hn.
  pose proof (table_entry_fits _ _ Hfit Hn) as Hnb.
  pose proof (pec_sized_stacks pec Hs) as Hlen.
  unfold pnv_pec_realize.
  destruct (index pec >=? chip_num_pecs pec) eqn:E; [lia|].
  cbn [pecc_num_stacks pnv_pec_class_init].
  rewrite (array_get_lookup _ _ _ (proj1 Hidx) Hn). cbn [obind].
  set (pec1 := set_num_stacks pec n).
  destruct (create_stacks_spec (Z.to_nat (num_stacks pec1)) 0 pec1)
    as [pec2 [j [err [Hrun [Hsame [Hout Hin]]]]]].
  { lia. }
  { unfold pec1. cbn [stacks num_stacks set_num_stacks]. lia. }
  rewrite Hrun. cbn [obind].
  destruct Hsame as (Hi & Hc & Hp & Hns & Hnr & Hpr & Hnm & Hpm & Hl).
  destruct err as [e|].
  - exists pec2, (Some e). split; [reflexivity|].
    repeat split; try assumption. discriminate.
  - destruct (Hin eq_refl) as [Hj Hall].
    unfold pec1 in Hj. cbn [num_stacks set_num_stacks] in Hj.
    destruct (unparent_stacks_spec (Z.to_nat (PHB4_PEC_MAX_STACKS - j)) j pec2)
      as [pec3 [Hun [Hsame3 Hlow]]].
    { lia. }
    { rewrite Hl. unfold pec1. cbn [stacks set_num_stacks]. lia. }
    rewrite Hun. cbn [obind].
    destruct Hsame3 as (Hi3 & Hc3 & Hp3 & Hns3 & Hnr3 & Hpr3 & Hnm3 & Hpm3 & Hl3).
    eexists _, None. split; [reflexivity|].
    cbn [index chip_id chip_num_pecs num_stacks nest_regs pci_regs stacks
         set_pci_regs_mr set_nest_regs_mr].
    unfold pec1 in Hi, Hc, Hp, Hns, Hnr, Hpr, Hl.
    cbn [index chip_id chip_num_pecs num_stacks nest_regs pci_regs stacks
         set_num_stacks] in Hi, Hc, Hp, Hns, Hnr, Hpr, Hl.
    do 7 (split; [congruence|]).
    intros _ k Hk.
    destruct (Hall k) as [old [Hold [Hq Hnew]]].
    { unfold pec1. cbn [num_stacks set_num_stacks]. lia. }
    exists old. split; [exact Hold|].
    rewrite Hlow by lia. rewrite Hnew.
    rewrite (qdev_realize_config pec1 pec) by reflexivity.
    rewrite (qdev_realize_config pec1 pec) in Hq by reflexivity.
    rewrite Hq. cbn [fst]. reflexivity.
Qed.

End RealizeFacts.

Section RealizeClaims.
Context {hdr : Phb4Headers}.
Variable defaults_enabled : bool.
Variable sysbus_realize : PnvPHB4 -> option Error.
Variable derive_phb_index : Z -> Z -> Z.

(** C4. For a PEC whose index is below the number of PECs of its chip, the
    realisation sets [num_stacks] to the entry of the table {1, 2, 3} at
    that index (1 for index 0, 2 for index 1, 3 for index 2), and no later
    access or export changes it. *)
Theorem realize_num_stacks (pec : PnvPhb4PecState) (n : Z) :
  stacks_fit = true ->
  pec_sized pec = true ->
  0 <= index pec < chip_num_pecs pec ->
  pnv_pec_num_stacks !! Z.to_nat (index pec) = Some n ->
  pnv_pec_num_stacks = [1; 2; 3]
  /\ n = index pec + 1
  /\ exists pec' err,
       pnv_pec_realize defaults_enabled sysbus_realize derive_phb_index pec
       = Returns (pec', err)
       /\ num_stacks pec' = n
       /\ forall calls pec'',
            pec_run derive_phb_index pec' calls = Returns pec'' ->
            num_stacks pec'' = n.
Proof.
  intros Hfit Hs Hidx Hn. split; [reflexivity|]. split.
  - destruct (Z.to_nat (index pec)) as [|[|[|k]]] eqn:E; cbn in Hn;
      try discriminate; injection Hn as <-; lia.
  - destruct (realize_spec defaults_enabled sysbus_realize derive_phb_index
                pec n Hfit Hs Hidx Hn)
      as [pec' [err (Hr & _ & _ & _ & Hns & _)]].
    exists pec', err. split; [exact Hr|]. split; [exact Hns|].
    intros calls pec'' Hrun.
    apply pec_run_same_device in Hrun as (_ & _ & _ & Hnum & _). congruence.
Qed.

(** C5. For a PEC whose index is not below the number of PECs of its chip,
    the realisation fails with the error "invalid PEC index: <index>" and
    returns with the state it was given: no region is initialised and no
    stack is realised. *)
Theorem realize_invalid_index (pec : PnvPhb4PecState) :
  chip_num_pecs pec <= index pec ->
  pnv_pec_realize defaults_enabled sysbus_realize derive_phb_index pec
  = Returns (pec, Some {| error_msg :=
      String.append "invalid PEC index: " (fmt_d (int_of_uint32 (index pec))) |}).
Proof.
  intros H. unfold pnv_pec_realize.
  destruct (index pec >=? chip_num_pecs pec) eqn:E; [reflexivity | lia].
Qed.

End RealizeClaims.

(** ** Address bases *)

Section BaseClaims.
Context {hdr : Phb4Headers}.

Lemma xscom_ranges_bounds :
  xscom_ranges_ok = true ->
  (0 <= PNV9_XSCOM_PEC_NEST_BASE
   /\ 0 < PNV9_XSCOM_PEC_NEST_SIZE <= 0x400
   /\ PNV9_XSCOM_PEC_NEST_BASE + 0x400 * 2 + PNV9_XSCOM_PEC_NEST_SIZE <= 2 ^ 32)
  /\ (0 <= PNV9_XSCOM_PEC_PCI_BASE
      /\ 0 < PNV9_XSCOM_PEC_PCI_SIZE <= 0x1000000
      /\ PNV9_XSCOM_PEC_PCI_BASE + 0x1000000 * 2 + PNV9_XSCOM_PEC_PCI_SIZE <= 2 ^ 32).
Proof.
  unfold xscom_ranges_ok. cbn [pnv_pec_num_stacks length]. cbv zeta.
  rewrite !andb_true_iff, !Z.leb_le, !Z.ltb_lt. lia.
Qed.

Lemma pec_index_valid_range (pec : PnvPhb4PecState) :
  pec_index_valid pec = true -> 0 <= index pec <= 2.
Proof.
  unfold pec_index_valid. cbn [pnv_pec_num_stacks length].
  rewrite andb_true_iff, Z.leb_le, Z.ltb_lt. lia.
Qed.

Lemma nest_base_exact (pec : PnvPhb4PecState) :
  xscom_ranges_ok = true -> pec_index_valid pec = true ->
  pnv_pec_xscom_nest_base pec = PNV9_XSCOM_PEC_NEST_BASE + 0x400 * index pec.
Proof.
  intros Hr Hv. apply xscom_ranges_bounds in Hr as [Hn _].
  apply pec_index_valid_range in Hv.
  unfold pnv_pec_xscom_nest_base. apply uint32_t_small. lia.
Qed.

Lemma pci_base_exact (pec : PnvPhb4PecState) :
  xscom_ranges_ok = true -> pec_index_valid pec = true ->
  pnv_pec_xscom_pci_base pec = PNV9_XSCOM_PEC_PCI_BASE + 0x1000000 * index pec.
Proof.
  intros Hr Hv. apply xscom_ranges_bounds in Hr as [_ Hp].
  apply pec_index_valid_range in Hv.
  unfold pnv_pec_xscom_pci_base. apply uint32_t_small. lia.
Qed.

(** C7. The nest base of a PEC is the nest origin plus 0x400 times its
    index, its pci base the pci origin plus 0x1000000 times its index; so
    the nest ranges of two PECs of different indices share no address, and
    neither do their pci ranges. *)
Theorem xscom_ranges_disjoint (p q : PnvPhb4PecState) :
  xscom_ranges_ok = true ->
  pec_index_valid p = true ->
  pec_index_valid q = true ->
  index p <> index q ->
  let pecc := pnv_pec_class_init in
  xscom_nest_base pecc p = PNV9_XSCOM_PEC_NEST_BASE + 0x400 * index p
  /\ xscom_pci_base pecc p = PNV9_XSCOM_PEC_PCI_BASE + 0x1000000 * index p
  /\ (forall a,
        xscom_nest_base pecc p <= a < xscom_nest_base pecc p + xscom_nest_size pecc ->
        ~ (xscom_nest_base pecc q <= a < xscom_nest_base pecc q + xscom_nest_size pecc))
  /\ (forall a,
        xscom_pci_base pecc p <= a < xscom_pci_base pecc p + xscom_pci_size pecc ->
        ~ (xscom_pci_base pecc q <= a < xscom_pci_base pecc q + xscom_pci_size pecc)).
Proof.
  intros Hr Hp Hq Hne pecc.
  cbn [pecc pnv_pec_class_init xscom_nest_base xscom_pci_base
       xscom_nest_size xscom_pci_size].
  rewrite (nest_base_exact p Hr Hp), (nest_base_exact q Hr Hq),
          (pci_base_exact p Hr Hp), (pci_base_exact q Hr Hq).
  apply xscom_ranges_bounds in Hr as [Hn Hc].
  repeat split; try reflexivity; intros a Ha Hb; lia.
Qed.

End BaseClaims.

(** ** The device tree *)

Lemma append_inj_l (s a b : string) :
  String.append s a = String.append s b -> a = b.
Proof. induction s as [|c s IH]; cbn; [trivial | intros [= H]; auto]. Qed.

Lemma to_hex_uint_nonnil (n : N) : N.to_hex_uint n <> Hexadecimal.Nil.
Proof.
  destruct n as [|q]; cbn; [discriminate | apply HexadecimalPos.Unsigned.to_uint_nonnil].
Qed.

(** [%x] prints different numbers differently. *)
Lemma fmt_x_inj (a b : Z) : 0 <= a -> 0 <= b -> fmt_x a = fmt_x b -> a = b.
Proof.
  intros Ha Hb H. unfold fmt_x in H.
  apply (f_equal HexadecimalString.NilZero.uint_of_string) in H.
  rewrite !HexadecimalString.NilZero.usu in H by apply to_hex_uint_nonnil.
  injection H as H. apply HexadecimalN.Unsigned.to_uint_inj in H.
  apply Z2N.inj; assumption.
Qed.

Section TreeFacts.

Lemma node_at_app (p q : list nat) :
  forall fdt, node_at fdt (p ++ q) =
              match node_at fdt p with Some n => node_at n q | None => None end.
Proof.
  induction p as [|i p IH]; intros fdt; cbn [app node_at]; [reflexivity|].
  destruct (node_subnodes fdt !! i); [apply IH | reflexivity].
Qed.

Lemma node_at_plug (p : list nat) (a : fdt_node) :
  forall fdt, is_Some (node_at fdt p) -> node_at (plug fdt p a) p = Some a.
Proof.
  unfold plug. induction p as [|i p IH]; intros fdt H; cbn [node_at update_at] in *;
    [reflexivity|].
  destruct (node_subnodes fdt !! i) as [c|] eqn:E; [|destruct H; discriminate].
  cbn [node_subnodes]. rewrite list_lookup_insert_eq by (eapply lookup_lt_Some; eauto).
  apply IH. exact H.
Qed.

Lemma plug_id (p : list nat) :
  forall fdt x, node_at fdt p = Some x -> plug fdt p x = fdt.
Proof.
  unfold plug. induction p as [|i p IH]; intros fdt x H; cbn [node_at update_at] in *.
  - congruence.
  - destruct (node_subnodes fdt !! i) as [c|] eqn:E; [|discriminate].
    rewrite (IH c x H). rewrite list_insert_id by exact E.
    destruct fdt; reflexivity.
Qed.

Lemma update_at_plug_app (p q : list nat) (a : fdt_node) (f : fdt_node -> fdt_node) :
  forall fdt, is_Some (node_at fdt p) ->
    update_at (plug fdt p a) (p ++ q) f = plug fdt p (update_at a q f).
Proof.
  unfold plug. induction p as [|i p IH]; intros fdt H; cbn [app node_at update_at] in *;
    [reflexivity|].
  destruct (node_subnodes fdt !! i) as [c|] eqn:E; [|destruct H; discriminate].
  cbn [node_subnodes node_name node_props].
  rewrite list_lookup_insert_eq by (eapply lookup_lt_Some; eauto).
  rewrite list_insert_insert_eq. rewrite IH by exact H. reflexivity.
Qed.

Lemma update_at_plug (p : list nat) (a : fdt_node) (f : fdt_node -> fdt_node) :
  forall fdt, is_Some (node_at fdt p) ->
    update_at (plug fdt p a) p f = plug fdt p (f a).
Proof.
  intros fdt H. rewrite <- (app_nil_r p) at 2. rewrite update_at_plug_app by exact H.
  reflexivity.
Qed.

Lemma update_at_as_plug (p : list nat) (f : fdt_node -> fdt_node) :
  forall fdt x, node_at fdt p = Some x -> update_at fdt p f = plug fdt p (f x).
Proof.
  intros fdt x H. rewrite <- (plug_id p fdt x H) at 1.
  apply update_at_plug. rewrite H. eauto.
Qed.

Lemma is_Some_node_at_plug (p : list nat) (a : fdt_node) (fdt : fdt_node) :
  is_Some (node_at fdt p) -> is_Some (node_at (plug fdt p a) p).
Proof. intros H. rewrite node_at_plug by exact H. eauto. Qed.

End TreeFacts.

Section LibfdtFacts.
Variable refuses : libfdt_oracle.
Hypothesis Hroom : never_refuses refuses.

(** [fdt_setprop] at a plugged node. *)
Lemma fdt_setprop_plug (p : list nat) (a fdt : fdt_node) (name : string)
    (val : list Z) (len : Z) :
  is_Some (node_at fdt p) ->
  fdt_setprop refuses (plug fdt p a) p name val len =
  (plug fdt p (node_setprop name (firstn (Z.to_nat len) val) a), inr tt).
Proof.
  intros H. unfold fdt_setprop. rewrite node_at_plug by exact H.
  rewrite Hroom, update_at_plug by exact H. reflexivity.
Qed.

(** [fdt_add_subnode] under a plugged node. *)
Lemma fdt_add_subnode_plug (p : list nat) (a fdt : fdt_node) (name : string) :
  is_Some (node_at fdt p) ->
  has_subnode a name = false ->
  fdt_add_subnode refuses (plug fdt p a) p name =
  (plug fdt p (prepend_subnode (FdtNode name [] []) a), inr (p ++ [0%nat])).
Proof.
  intros H Hn. unfold fdt_add_subnode. rewrite node_at_plug by exact H.
  rewrite Hn, Hroom. rewrite update_at_plug by exact H. reflexivity.
Qed.

Lemma fdt_setprop_at (p : list nat) (a fdt : fdt_node) (name : string)
    (val : list Z) (len : Z) :
  node_at fdt p = Some a ->
  fdt_setprop refuses fdt p name val len =
  (plug fdt p (node_setprop name (firstn (Z.to_nat len) val) a), inr tt).
Proof.
  intros H. unfold fdt_setprop. rewrite H, Hroom.
  rewrite (update_at_as_plug p _ fdt a H). reflexivity.
Qed.

Lemma fdt_add_subnode_at (p : list nat) (a fdt : fdt_node) (name : string) :
  node_at fdt p = Some a ->
  has_subnode a name = false ->
  fdt_add_subnode refuses fdt p name =
  (plug fdt p (prepend_subnode (FdtNode name [] []) a), inr (p ++ [0%nat])).
Proof.
  intros H Hn. unfold fdt_add_subnode. rewrite H, Hn, Hroom.
  rewrite (update_at_as_plug p _ fdt a H). reflexivity.
Qed.

End LibfdtFacts.

(** The subnode that [fdt_add_subnode] added is the first subnode of its
    parent, and can be replaced there. *)
Lemma node_at_prepended (p : list nat) (a c fdt : fdt_node) :
  is_Some (node_at fdt p) ->
  node_at (plug fdt p (prepend_subnode c a)) (p ++ [0%nat]) = Some c.
Proof.
  intros H. rewrite node_at_app, node_at_plug by exact H. reflexivity.
Qed.

Lemma plug_prepended (p : list nat) (a c c' fdt : fdt_node) :
  is_Some (node_at fdt p) ->
  plug (plug fdt p (prepend_subnode c a)) (p ++ [0%nat]) c' =
  plug fdt p (prepend_subnode c' a).
Proof.
  intros H. unfold plug at 1. rewrite update_at_plug_app by exact H. reflexivity.
Qed.

(** A call that libfdt refuses makes the caller exit; a call that it does
    not refuse is the call on a blob with room for everything. *)
Lemma obind_refused {A B : Type} (m m' : outcome A) (k k' : A -> outcome B) :
  m = Exits \/ m = m' ->
  (forall a, k a = Exits \/ k a = k' a) ->
  obind m k = Exits \/ obind m k = obind m' k'.
Proof.
  intros [-> | ->] Hk; [left; reflexivity|].
  destruct m' as [a| |]; cbn [obind]; auto.
Qed.

Lemma fdt_add_subnode_refused (refuses : libfdt_oracle) (fdt : fdt_node)
    (p : list nat) (name : string) :
  _FDT (fdt_add_subnode refuses fdt p name) = Exits
  \/ _FDT (fdt_add_subnode refuses fdt p name)
     = _FDT (fdt_add_subnode no_refusal fdt p name).
Proof.
  unfold fdt_add_subnode, no_refusal. destruct (node_at fdt p) as [x|]; [|auto].
  destruct (has_subnode x name); [auto|].
  destruct (refuses fdt _); auto.
Qed.

Lemma fdt_setprop_refused (refuses : libfdt_oracle) (fdt : fdt_node)
    (p : list nat) (name : string) (val : list Z) (len : Z) :
  _FDT (fdt_setprop refuses fdt p name val len) = Exits
  \/ _FDT (fdt_setprop refuses fdt p name val len)
     = _FDT (fdt_setprop no_refusal fdt p name val len).
Proof.
  unfold fdt_setprop, no_refusal. destruct (node_at fdt p) as [x|]; [|auto].
  destruct (refuses fdt _); auto.
Qed.

Lemma no_refusal_never : never_refuses no_refusal.
Proof. intros fdt call. reflexivity. Qed.

Section ExportRefusals.
Context {hdr : Phb4Headers}.
Variable derive_phb_index : Z -> Z -> Z.

Lemma dt_stacks_refused (refuses : libfdt_oracle) (pec : PnvPhb4PecState)
    (off : list nat) (fuel : nat) :
  forall (i : Z) (fdt : fdt_node),
    dt_stacks derive_phb_index refuses fuel i pec fdt off = Exits
    \/ dt_stacks derive_phb_index refuses fuel i pec fdt off
       = dt_stacks derive_phb_index no_refusal fuel i pec fdt off.
Proof.
  induction fuel as [|fuel IH]; intros i fdt; cbn [dt_stacks]; [auto|].
  apply obind_refused; [apply fdt_add_subnode_refused | intros [fdt1 so]].
  apply obind_refused; [apply fdt_setprop_refused | intros [fdt2 []]].
  apply obind_refused; [apply fdt_setprop_refused | intros [fdt3 []]].
  apply obind_refused; [apply fdt_setprop_refused | intros [fdt4 []]].
  apply IH.
Qed.

(** Whatever libfdt refuses, the export either exits or does what it does
    when libfdt refuses nothing. *)
Lemma dt_xscom_refused (refuses : libfdt_oracle) (pec : PnvPhb4PecState)
    (fdt : fdt_node) (off : list nat) :
  pnv_pec_dt_xscom derive_phb_index refuses pec fdt off = Exits
  \/ pnv_pec_dt_xscom derive_phb_index refuses pec fdt off = pnv_pec_dt_xscom derive_phb_index no_refusal pec fdt off.
Proof.
  unfold pnv_pec_dt_xscom.
  apply obind_refused; [apply fdt_add_subnode_refused | intros [fdt1 o]].
  do 5 (apply obind_refused; [apply fdt_setprop_refused | intros [? []]]).
  apply obind_refused; [apply dt_stacks_refused | auto].
Qed.

End ExportRefusals.

Section ExportFacts.
Context {hdr : Phb4Headers}.
Variable derive_phb_index : Z -> Z -> Z.
Variable refuses : libfdt_oracle.
Hypothesis Hroom : never_refuses refuses.

#[local] Abbreviation stack_node' := (stack_node derive_phb_index).
#[local] Abbreviation pec_node' := (pec_node derive_phb_index).
#[local] Abbreviation dt_stacks' := (dt_stacks derive_phb_index refuses).

Lemma seqZ_snoc (k : Z) : 0 <= k -> seqZ 0 (k + 1) = seqZ 0 k ++ [k].
Proof.
  intros Hk. rewrite seqZ_app by lia. reflexivity.
Qed.

(** No stack below [k] has the name of stack [k]. *)
Lemma stack_name_fresh (pec : PnvPhb4PecState) (name : string)
    (props : list fdt_prop) (k : Z) :
  0 <= k < 2 ^ 32 ->
  has_subnode (FdtNode name props (stack_node' pec <$> reverse (seqZ 0 k)))
              (String.append "stack@" (fmt_x (uint32_t k))) = false.
Proof.
  intros Hk. unfold has_subnode. cbn [node_subnodes].
  destruct (existsb _ _) eqn:E; [|reflexivity]. exfalso.
  apply existsb_exists in E as [c [Hc Hname]].
  apply list_elem_of_In, list_elem_of_fmap in Hc as [j [-> Hj]].
  apply elem_of_reverse, elem_of_seqZ in Hj.
  apply String.eqb_eq in Hname. cbn [stack_node node_name] in Hname.
  apply append_inj_l in Hname.
  apply fmt_x_inj in Hname; try apply uint32_t_range.
  rewrite !uint32_t_small in Hname by lia. lia.
Qed.

(** The loop over the stacks adds the nodes of the stacks [k], [k + 1],
    ..., each in front of the ones before. *)
Lemma dt_stacks_spec (pec : PnvPhb4PecState) (p : list nat) (fdt : fdt_node)
    (name : string) (props : list fdt_prop) (fuel : nat) :
  forall k : Z,
    is_Some (node_at fdt p) ->
    0 <= k -> k + Z.of_nat fuel <= 2 ^ 32 ->
    dt_stacks' fuel k pec
      (plug fdt p (FdtNode name props (stack_node' pec <$> reverse (seqZ 0 k)))) p
    = Returns (plug fdt p
                 (FdtNode name props
                    (stack_node' pec <$> reverse (seqZ 0 (k + Z.of_nat fuel))))).
Proof.
  induction fuel as [|fuel IH]; intros k Hp Hk Hmax.
  - cbn [dt_stacks]. rewrite Z.add_0_r. reflexivity.
  - cbn [dt_stacks].
    set (a := FdtNode name props (stack_node' pec <$> reverse (seqZ 0 k))).
    rewrite (fdt_add_subnode_plug refuses Hroom p a fdt _ Hp)
      by (apply stack_name_fresh; lia).
    cbn [_FDT obind].
    set (fdt1 := plug fdt p (prepend_subnode _ a)).
    set (so := p ++ [0%nat]).
    assert (Hnew : node_at fdt1 so = Some
              (FdtNode (String.append "stack@" (fmt_x (uint32_t k))) [] []))
      by (apply node_at_prepended; exact Hp).
    assert (Hso : is_Some (node_at fdt1 so)) by (rewrite Hnew; eauto).
    rewrite (fdt_setprop_at refuses Hroom so _ fdt1 _ _ _ Hnew). cbn [_FDT obind].
    unfold fdt_setprop_cell.
    rewrite (fdt_setprop_plug refuses Hroom so _ fdt1 _ _ _ Hso). cbn [_FDT obind].
    rewrite (fdt_setprop_plug refuses Hroom so _ fdt1 _ _ _ Hso). cbn [_FDT obind].
    unfold fdt1, so. rewrite (plug_prepended p a _ _ fdt Hp).
    replace (prepend_subnode _ a)
      with (FdtNode name props (stack_node' pec <$> reverse (seqZ 0 (k + 1)))).
    + rewrite IH by (try assumption; lia).
      replace (k + 1 + Z.of_nat fuel) with (k + Z.of_nat (S fuel)) by lia. reflexivity.
    + unfold a, prepend_subnode. cbn [node_name node_props node_subnodes].
      rewrite seqZ_snoc by lia. rewrite reverse_snoc, fmap_cons. reflexivity.
Qed.

(** The whole export, for a tree in which [xscom_offset] is a node without
    a subnode of the PEC's name, when libfdt refuses nothing. *)
Lemma dt_xscom_spec (pec : PnvPhb4PecState) (fdt : fdt_node)
    (xscom_offset : list nat) (xscom : fdt_node) :
  node_at fdt xscom_offset = Some xscom ->
  has_subnode xscom (String.append "pbcq@" (fmt_x (pnv_pec_xscom_nest_base pec))) = false ->
  num_stacks pec < 2 ^ 31 ->
  pnv_pec_dt_xscom derive_phb_index refuses pec fdt xscom_offset =
  Returns (plug fdt xscom_offset (prepend_subnode (pec_node' pec) xscom), 0).
Proof.
  intros Hx Hfresh Hn. unfold pnv_pec_dt_xscom.
  cbn [pnv_pec_class_init xscom_nest_base xscom_pci_base xscom_nest_size
       xscom_pci_size compat compat_size].
  rewrite (fdt_add_subnode_at refuses Hroom xscom_offset xscom fdt _ Hx Hfresh).
  cbn [_FDT obind].
  assert (Hp : is_Some (node_at fdt xscom_offset)) by (rewrite Hx; eauto).
  set (fdt1 := plug fdt xscom_offset (prepend_subnode _ xscom)).
  set (off := xscom_offset ++ [0%nat]).
  assert (Hnew : node_at fdt1 off = Some
            (FdtNode (String.append "pbcq@" (fmt_x (pnv_pec_xscom_nest_base pec))) [] []))
    by (apply node_at_prepended; exact Hp).
  assert (Hoff : is_Some (node_at fdt1 off)) by (rewrite Hnew; eauto).
  rewrite (fdt_setprop_at refuses Hroom off _ fdt1 _ _ _ Hnew). cbn [_FDT obind].
  unfold fdt_setprop_cell.
  do 4 (rewrite (fdt_setprop_plug refuses Hroom off _ fdt1 _ _ _ Hoff); cbn [_FDT obind]).
  match goal with
  | |- context [dt_stacks _ _ _ _ _ (plug fdt1 off ?n) off] =>
      change n with
        (FdtNode (String.append "pbcq@" (fmt_x (pnv_pec_xscom_nest_base pec)))
                 (node_props (pec_node' pec))
                 (stack_node' pec <$> reverse (seqZ 0 0)))
  end.
  rewrite (dt_stacks_spec pec off fdt1 _ _ _ 0 Hoff) by lia.
  cbn [obind]. unfold fdt1, off. rewrite (plug_prepended _ _ _ _ fdt Hp).
  do 3 f_equal. unfold pec_node. cbn [node_props]. do 3 f_equal.
  unfold seqZ. rewrite Z.add_0_l, Nat2Z.id. reflexivity.
Qed.

End ExportFacts.

Section ExportClaims.
Context {hdr : Phb4Headers}.
Variable defaults_enabled : bool.
Variable sysbus_realize : PnvPHB4 -> option Error.
Variable derive_phb_index : Z -> Z -> Z.
Variable libfdt_refuses : libfdt_oracle.

#[local] Abbreviation stack_node'' := (stack_node derive_phb_index).
#[local] Abbreviation pec_node'' := (pec_node derive_phb_index).

(** Stack [i] is the subnode number [num_stacks - 1 - i] of the node of
    its PEC. *)
Lemma pec_node_subnode (pec : PnvPhb4PecState) (i : Z) :
  0 <= i < num_stacks pec ->
  node_subnodes (pec_node'' pec) !! Z.to_nat (num_stacks pec - 1 - i)
  = Some (stack_node'' pec i).
Proof.
  intros Hi. cbn [pec_node node_subnodes].
  rewrite list_lookup_fmap, reverse_lookup by (rewrite length_seqZ; lia).
  rewrite length_seqZ.
  rewrite (lookup_seqZ_lt 0 (num_stacks pec)) by lia.
  cbn. do 2 f_equal. lia.
Qed.


Lemma realize_done (pec0 pec : PnvPhb4PecState) :
  pnv_pec_realize defaults_enabled sysbus_realize derive_phb_index pec0
  = Returns (pec, None) ->
  0 <= index pec0 < chip_num_pecs pec0
  /\ exists n, pnv_pec_num_stacks !! Z.to_nat (index pec0) = Some n /\ 1 <= n <= 3.
Proof.
  unfold pnv_pec_realize.
  destruct (index pec0 >=? chip_num_pecs pec0) eqn:E; [discriminate|].
  cbn [pecc_num_stacks pnv_pec_class_init].
  destruct (array_get pnv_pec_num_stacks (index pec0)) as [n| |] eqn:Hget;
    cbn [obind]; try discriminate.
  intros _. apply array_get_returns in Hget as [Hi Hn].
  split; [lia|]. exists n. split; [exact Hn|].
  destruct (Z.to_nat (index pec0)) as [|[|[|k]]]; cbn in Hn;
    try discriminate; injection Hn as <-; lia.
Qed.

(** The default PHB of a stack is configured from the PEC and the number of
    the stack, whether or not its realisation succeeds. *)
Lemma default_phb_configured (pec : PnvPhb4PecState) (stack : PnvPhb4PecStack) :
  exists q,
    phb (fst (pnv_pec_stk_default_phb_realize sysbus_realize derive_phb_index
                pec stack)) = Some q
    /\ phb_index q = derive_phb_index (index pec) (stack_no stack)
    /\ phb_chip_id q = chip_id pec
    /\ stack_no (fst (pnv_pec_stk_default_phb_realize sysbus_realize derive_phb_index
                        pec stack)) = stack_no stack.
Proof.
  unfold pnv_pec_stk_default_phb_realize.
  destruct (sysbus_realize _); cbn; eexists; repeat split; reflexivity.
Qed.

(** C9. For every live stack of a realised PEC, the [ibm,phb-index] that
    the export writes is the index that the default PHB of the stack was
    configured with: both are [derive_phb_index] of the PEC's index and of
    the stack's number.  The export returns the tree with this node unless
    libfdt reports an error, on which it exits. *)
Theorem phb_index_agrees (pec0 pec : PnvPhb4PecState) (fdt : fdt_node)
    (xscom_offset : list nat) (xscom : fdt_node) (i : Z) :
  stacks_fit = true ->
  pec_sized pec0 = true ->
  defaults_enabled = true ->
  pnv_pec_realize defaults_enabled sysbus_realize derive_phb_index pec0
  = Returns (pec, None) ->
  node_at fdt xscom_offset = Some xscom ->
  has_subnode xscom (String.append "pbcq@" (fmt_x (pnv_pec_xscom_nest_base pec))) = false ->
  0 <= i < num_stacks pec ->
  exists stk p fdt' node,
    stacks pec !! Z.to_nat i = Some stk
    /\ stack_no stk = i
    /\ phb stk = Some p
    /\ phb_index p = derive_phb_index (index pec) (stack_no stk)
    /\ (pnv_pec_dt_xscom derive_phb_index libfdt_refuses pec fdt xscom_offset = Exits
        \/ pnv_pec_dt_xscom derive_phb_index libfdt_refuses pec fdt xscom_offset
           = Returns (fdt', 0))
    /\ (never_refuses libfdt_refuses ->
        pnv_pec_dt_xscom derive_phb_index libfdt_refuses pec fdt xscom_offset
        = Returns (fdt', 0))
    /\ node_at fdt' (xscom_offset ++ [0%nat; Z.to_nat (num_stacks pec - 1 - i)])
       = Some node
    /\ node_name node = String.append "stack@" (fmt_x (stack_no stk))
    /\ props_get (node_props node) "reg" = Some (cpu_to_be32 (uint32_t (stack_no stk)))
    /\ props_get (node_props node) "ibm,phb-index"
       = Some (cpu_to_be32 (uint32_t (phb_index p))).
Proof.
  intros Hfit Hs Hdef Hreal Hx Hfresh Hi.
  destruct (realize_done pec0 pec Hreal) as [Hidx [n [Hn Hn3]]].
  destruct (realize_spec defaults_enabled sysbus_realize derive_phb_index
              pec0 n Hfit Hs Hidx Hn)
    as [pec' [err (Hr & Hindex & _ & _ & Hns & _ & _ & _ & Hstk)]].
  rewrite Hreal in Hr. injection Hr as <- <-.
  destruct (Hstk eq_refl i) as [old [_ Hnew]]; [lia|].
  assert (Hp : is_Some (node_at fdt xscom_offset)) by (rewrite Hx; eauto).
  unfold pnv_pec_stk_realize in Hnew. rewrite Hdef in Hnew. cbn [negb] in Hnew.
  destruct (default_phb_configured pec0 (set_stk_pec (set_stack_no old i)))
    as [q (Hq & Hqi & _ & Hno)].
  cbn [stack_no set_stk_pec set_stack_no] in Hqi, Hno.
  eexists _, q, _, (stack_node'' pec i).
  split; [exact Hnew|].
  cbn [stack_no phb set_stk_realized]. rewrite Hno.
  split; [reflexivity|]. split; [exact Hq|].
  split; [congruence|].
  split.
  { destruct (dt_xscom_refused derive_phb_index libfdt_refuses pec fdt xscom_offset)
      as [E|E]; [left; exact E | right; rewrite E].
    apply (dt_xscom_spec derive_phb_index no_refusal no_refusal_never pec fdt
             xscom_offset xscom Hx Hfresh); lia. }
  split.
  { intros Hroom.
    apply (dt_xscom_spec derive_phb_index libfdt_refuses Hroom pec fdt
             xscom_offset xscom Hx Hfresh); lia. }
  split.
  { change [0%nat; Z.to_nat (num_stacks pec - 1 - i)]
      with ([0%nat] ++ [Z.to_nat (num_stacks pec - 1 - i)]).
    rewrite app_assoc, node_at_app, node_at_prepended by exact Hp.
    cbn [node_at]. rewrite pec_node_subnode by exact Hi. reflexivity. }
  split.
  { cbn [stack_node node_name]. rewrite uint32_t_small by lia. reflexivity. }
  split; [reflexivity|].
  cbn [stack_node node_props props_get String.eqb Ascii.eqb Bool.eqb prop_name
       prop_val be32_prop].
  rewrite Hqi. unfold pnv_phb4_pec_get_phb_id. rewrite Hindex. reflexivity.
Qed.

End ExportClaims.

(** ** The claims on a POWER9 chip *)

(** C1 on POWER9: 0x1234 written to the hardware-config register of the
    nest bank is read back. *)
Lemma xscom_write_then_read_pnv9 :
  exists pec',
    write (@xscom_ops pnv9_headers Nest) pec2_realized 0 0x1234 8 = Returns (pec', [])
    /\ read (@xscom_ops pnv9_headers Nest) pec' 0 8 = Returns 0x1234.
Proof.
  apply (@xscom_write_then_read pnv9_headers Nest pec2_realized 0 0x1234).
  - reflexivity.
  - reflexivity.
  - vm_compute. lia.
Defined.

(** C2 on POWER9: a write to register 1 of the pci bank is dropped and
    logged. *)
Lemma xscom_write_not_whitelisted_pnv9 :
  exists pec' e,
    write (@xscom_ops pnv9_headers Pci) pec2_realized 8 0x1234 8 = Returns (pec', [e])
    /\ pec' = pec2_realized
    /\ read (@xscom_ops pnv9_headers Pci) pec' 8 8
       = read (@xscom_ops pnv9_headers Pci) pec2_realized 8 8
    /\ log_category e = LOG_GUEST_ERROR
    /\ log_text e = concat_str
         [ "phb4_pec["%string; fmt_d (int_of_uint32 (chip_id pec2_realized)); ":"%string;
           fmt_d (int_of_uint32 (index pec2_realized)); "]: "%string; write_func Pci;
           " @0x"%string; fmt_x 8; "="%string; fmt_x 0x1234; nl; nl ].
Proof.
  apply (@xscom_write_not_whitelisted pnv9_headers Pci pec2_realized 8 0x1234).
  vm_compute. lia.
Defined.

(** The text logged for the rejected write above. *)
Example rejected_write_text :
  concat_str
    [ "phb4_pec["%string; fmt_d (int_of_uint32 (chip_id pec2_realized)); ":"%string;
      fmt_d (int_of_uint32 (index pec2_realized)); "]: "%string; write_func Pci;
      " @0x"%string; fmt_x 8; "="%string; fmt_x 0x1234; nl; nl ]
  = String.append "phb4_pec[0:2]: pnv_pec_pci_xscom_write @0x8=1234" (String.append nl nl).
Proof. reflexivity. Qed.

(** C3 fails as stated: on POWER9 register 1 of the nest bank
    (drop-priority-control) is not in the enumerated set, and a write to it
    is stored without any diagnostic. *)
Lemma nest_drop_prio_ctrl_is_writable :
  ~ In (uint32_t (Z.shiftr 8 3)) (@spec_whitelist pnv9_headers Nest)
  /\ exists pec',
       @pnv_pec_nest_xscom_write pnv9_headers pec2_realized 8 0x1234 8 = Returns (pec', [])
       /\ pnv_pec_nest_xscom_read pec' 8 8 = Returns 0x1234.
Proof.
  split; [vm_compute; lia|].
  eexists. split; reflexivity.
Qed.

(** C3, as amended, on POWER9, for a write to register 1 of the nest bank. *)
Lemma write_whitelist_exact_pnv9 :
  let r := uint32_t (Z.shiftr 8 3) in
  (forall x, In x (@write_whitelist pnv9_headers Nest) <->
             x = @PEC_NEST_DROP_PRIO_CTRL pnv9_headers
             \/ In x (@spec_whitelist pnv9_headers Nest))
  /\ @write_whitelist pnv9_headers Pci
     = [@PEC_PCI_PBAIB_HW_CONFIG pnv9_headers; @PEC_PCI_PBAIB_READ_STK_OVR pnv9_headers]
  /\ (In r (@write_whitelist pnv9_headers Nest) ->
      write (@xscom_ops pnv9_headers Nest) pec2_realized 8 0x1234 8 =
      Returns (set_bank_regs Nest pec2_realized
                 (<[Z.to_nat r := 0x1234]> (bank_regs Nest pec2_realized)), []))
  /\ (~ In r (@write_whitelist pnv9_headers Nest) ->
      write (@xscom_ops pnv9_headers Nest) pec2_realized 8 0x1234 8 =
      Returns (pec2_realized,
               [phb_pec_error pec2_realized (write_func Nest) 8 0x1234])).
Proof.
  apply (@write_whitelist_exact pnv9_headers Nest pec2_realized 8 0x1234).
  - reflexivity.
  - reflexivity.
Defined.

(** C10 on POWER9, for a write to the read-stack-override register of the
    pci bank. *)
Lemma xscom_frame_pnv9 :
  (exists pec',
     @xscom_step pnv9_headers pec2_realized (XscomWrite Pci 16 0x1234)
     = Returns (pec', [], None)
     /\ (forall i : nat, i <> Z.to_nat (uint32_t (Z.shiftr 16 3)) ->
           bank_regs Pci pec' !! i = bank_regs Pci pec2_realized !! i)
     /\ bank_regs (other_bank Pci) pec' = bank_regs (other_bank Pci) pec2_realized
     /\ index pec' = index pec2_realized
     /\ chip_id pec' = chip_id pec2_realized
     /\ chip_num_pecs pec' = chip_num_pecs pec2_realized
     /\ num_stacks pec' = num_stacks pec2_realized
     /\ stacks pec' = stacks pec2_realized
     /\ nest_regs_mr pec' = nest_regs_mr pec2_realized
     /\ pci_regs_mr pec' = pci_regs_mr pec2_realized)
  /\ (forall b' addr' pec'' log ret,
        @xscom_step pnv9_headers pec2_realized (XscomRead b' addr')
        = Returns (pec'', log, ret) ->
        pec'' = pec2_realized /\ log = []).
Proof.
  apply (@xscom_frame pnv9_headers Pci pec2_realized 16 0x1234).
  - reflexivity.
  - reflexivity.
  - vm_compute. lia.
Defined.

(** C6, as amended, on POWER9, for the last register of the nest bank. *)
Lemma xscom_read_in_window_pnv9 :
  (exists v,
     bank_regs Nest pec2_realized !! Z.to_nat (Z.shiftr 0x70 3) = Some v
     /\ read (@xscom_ops pnv9_headers Nest) pec2_realized 0x70 8 = Returns v)
  /\ (forall pec0 calls,
        bank_regs Nest pec0
        = replicate (Z.to_nat (@bank_regs_count pnv9_headers Nest)) 0 ->
        @pec_run pnv9_headers consecutive_phb_index pec0 calls = Returns pec2_realized ->
        Forall (fun c => ~ stores_to Nest (Z.shiftr 0x70 3) c) calls ->
        read (@xscom_ops pnv9_headers Nest) pec2_realized 0x70 8 = Returns 0).
Proof.
  apply (@xscom_read_in_window pnv9_headers consecutive_phb_index Nest pec2_realized 0x70).
  - reflexivity.
  - reflexivity.
  - vm_compute. split; [discriminate | reflexivity].
Defined.

(** C4 on POWER9: PEC2 gets three stacks. *)
Lemma realize_num_stacks_pnv9 :
  pnv_pec_num_stacks = [1; 2; 3]
  /\ 3 = index pec2_created + 1
  /\ exists pec' err,
       @pnv_pec_realize pnv9_headers true sysbus_realize_ok consecutive_phb_index
         pec2_created = Returns (pec', err)
       /\ num_stacks pec' = 3
       /\ forall calls pec'',
            @pec_run pnv9_headers consecutive_phb_index pec' calls = Returns pec'' ->
            num_stacks pec'' = 3.
Proof.
  apply (@realize_num_stacks pnv9_headers true sysbus_realize_ok consecutive_phb_index
           pec2_created 3).
  - reflexivity.
  - reflexivity.
  - vm_compute. split; [discriminate | reflexivity].
  - reflexivity.
Defined.

(** C5 on POWER9: there is no PEC3 on a chip of three PECs. *)
Lemma realize_invalid_index_pnv9 :
  @pnv_pec_realize pnv9_headers true sysbus_realize_ok consecutive_phb_index
    (@pec_create pnv9_headers 0 3 3)
  = Returns (@pec_create pnv9_headers 0 3 3,
             Some {| error_msg := String.append "invalid PEC index: "
                       (fmt_d (int_of_uint32 (index (@pec_create pnv9_headers 0 3 3)))) |}).
Proof.
  apply (@realize_invalid_index pnv9_headers true sysbus_realize_ok consecutive_phb_index
           (@pec_create pnv9_headers 0 3 3)).
  vm_compute. discriminate.
Defined.

Example invalid_index_text :
  String.append "invalid PEC index: "
    (fmt_d (int_of_uint32 (index (@pec_create pnv9_headers 0 3 3))))
  = "invalid PEC index: 3"%string.
Proof. reflexivity. Qed.

(** C7 on POWER9, for PEC1 and PEC2. *)
Lemma xscom_ranges_disjoint_pnv9 :
  let p := @pec_create pnv9_headers 0 1 3 in
  let q := pec2_created in
  let pecc := @pnv_pec_class_init pnv9_headers in
  xscom_nest_base pecc p = @PNV9_XSCOM_PEC_NEST_BASE pnv9_headers + 0x400 * index p
  /\ xscom_pci_base pecc p = @PNV9_XSCOM_PEC_PCI_BASE pnv9_headers + 0x1000000 * index p
  /\ (forall a,
        xscom_nest_base pecc p <= a < xscom_nest_base pecc p + xscom_nest_size pecc ->
        ~ (xscom_nest_base pecc q <= a < xscom_nest_base pecc q + xscom_nest_size pecc))
  /\ (forall a,
        xscom_pci_base pecc p <= a < xscom_pci_base pecc p + xscom_pci_size pecc ->
        ~ (xscom_pci_base pecc q <= a < xscom_pci_base pecc q + xscom_pci_size pecc)).
Proof.
  apply (@xscom_ranges_disjoint pnv9_headers (@pec_create pnv9_headers 0 1 3) pec2_created).
  - reflexivity.
  - reflexivity.
  - reflexivity.
  - vm_compute. discriminate.
Defined.



(** The tree exported for PEC2, in the order of the blob: in the "pbcq"
    node the property set last comes first, and so does the stack added
    last. *)
Example dt_xscom_pec2 :
  @pnv_pec_dt_xscom pnv9_headers consecutive_phb_index no_refusal pec2_realized
    example_fdt [0%nat]
  = Returns
      (FdtNode "" []
         [ FdtNode "xscom@603fc00000000" []
             [ FdtNode "pbcq@4011400"
                 [ {| prop_name := "compatible";
                      prop_val := chars_of "ibm,power9-pbcq" |};
                   {| prop_name := "#size-cells"; prop_val := [0; 0; 0; 0] |};
                   {| prop_name := "#address-cells"; prop_val := [0; 0; 0; 1] |};
                   {| prop_name := "ibm,pec-index"; prop_val := [0; 0; 0; 2] |};
                   {| prop_name := "reg";
                      prop_val := [0x04; 0x01; 0x14; 0x00; 0x00; 0x00; 0x01; 0x00;
                                   0x0f; 0x01; 0x08; 0x00; 0x00; 0x00; 0x02; 0x00] |} ]
                 [ FdtNode "stack@2"
                     [ {| prop_name := "ibm,phb-index"; prop_val := [0; 0; 0; 5] |};
                       {| prop_name := "reg"; prop_val := [0; 0; 0; 2] |};
                       {| prop_name := "compatible";
                          prop_val := chars_of "ibm,power9-phb-stack" |} ] [];
                   FdtNode "stack@1"
                     [ {| prop_name := "ibm,phb-index"; prop_val := [0; 0; 0; 4] |};
                       {| prop_name := "reg"; prop_val := [0; 0; 0; 1] |};
                       {| prop_name := "compatible";
                          prop_val := chars_of "ibm,power9-phb-stack" |} ] [];
                   FdtNode "stack@0"
                     [ {| prop_name := "ibm,phb-index"; prop_val := [0; 0; 0; 3] |};
                       {| prop_name := "reg"; prop_val := [0; 0; 0; 0] |};
                       {| prop_name := "compatible";
                          prop_val := chars_of "ibm,power9-phb-stack" |} ] []
                 ] ] ], 0).
Proof. vm_compute. reflexivity. Qed.

(** C9 on POWER9, for the last stack of PEC2. *)
Lemma phb_index_agrees_pnv9 :
  exists stk p fdt' node,
    stacks pec2_realized !! Z.to_nat 2 = Some stk
    /\ stack_no stk = 2
    /\ phb stk = Some p
    /\ phb_index p = consecutive_phb_index (index pec2_realized) (stack_no stk)
    /\ (@pnv_pec_dt_xscom pnv9_headers consecutive_phb_index no_refusal pec2_realized
          busy_fdt [0%nat] = Exits
        \/ @pnv_pec_dt_xscom pnv9_headers consecutive_phb_index no_refusal pec2_realized
             busy_fdt [0%nat] = Returns (fdt', 0))
    /\ (never_refuses no_refusal ->
        @pnv_pec_dt_xscom pnv9_headers consecutive_phb_index no_refusal pec2_realized
          busy_fdt [0%nat] = Returns (fdt', 0))
    /\ node_at fdt'
         ([0%nat] ++ [0%nat; Z.to_nat (num_stacks pec2_realized - 1 - 2)])
       = Some node
    /\ node_name node = String.append "stack@" (fmt_x (stack_no stk))
    /\ props_get (node_props node) "reg" = Some (cpu_to_be32 (uint32_t (stack_no stk)))
    /\ props_get (node_props node) "ibm,phb-index"
       = Some (cpu_to_be32 (uint32_t (phb_index p))).
Proof.
  apply (@phb_index_agrees pnv9_headers true sysbus_realize_ok consecutive_phb_index
           no_refusal pec2_created pec2_realized busy_fdt [0%nat] busy_xscom 2).
  - reflexivity.
  - reflexivity.
  - reflexivity.
  - vm_compute. reflexivity.
  - reflexivity.
  - reflexivity.
  - vm_compute. split; [discriminate | reflexivity].
Defined.

(** PEC2 after its realisation: three live stacks with the PHBs 3, 4, 5. *)
Example pec2_realized_stacks :
  num_stacks pec2_realized = 3
  /\ map (fun s => (stack_no s, option_map phb_index (phb s), stk_realized s))
         (stacks pec2_realized)
     = [ (0, Some 3, true); (1, Some 4, true); (2, Some 5, true) ]
  /\ option_map mr_name (nest_regs_mr pec2_realized) = Some "xscom-pec-0.2-nest"%string
  /\ option_map mr_name (pci_regs_mr pec2_realized) = Some "xscom-pec-0.2-pci"%string.
Proof. vm_compute. repeat split; reflexivity. Qed.

(** * Further properties *)

(** ** Realisation, path by path *)

Section RealizePaths.
Context {hdr : Phb4Headers}.
Variable defaults_enabled : bool.
Variable sysbus_realize : PnvPHB4 -> option Error.
Variable derive_phb_index : Z -> Z -> Z.

#[local] Abbreviation qdev_realize_ :=
  (qdev_realize defaults_enabled sysbus_realize derive_phb_index).
#[local] Abbreviation create_stacks_ :=
  (create_stacks defaults_enabled sysbus_realize derive_phb_index).
#[local] Abbreviation pnv_pec_realize_ :=
  (pnv_pec_realize defaults_enabled sysbus_realize derive_phb_index).
#[local] Abbreviation pnv_pec_stk_realize_ :=
  (pnv_pec_stk_realize defaults_enabled sysbus_realize derive_phb_index).

Lemma stk_realize_config (p q : PnvPhb4PecState) (s : PnvPhb4PecStack) :
  index p = index q -> chip_id p = chip_id q ->
  pnv_pec_stk_realize_ p s = pnv_pec_stk_realize_ q s.
Proof.
  intros Hi Hc.
  unfold pnv_pec_stk_realize, pnv_pec_stk_default_phb_realize, pnv_phb4_pec_get_phb_id.
  rewrite Hi, Hc. reflexivity.
Qed.

Lemma qdev_realize_fails (pec : PnvPhb4PecState) (s s' : PnvPhb4PecStack) (e : Error) :
  qdev_realize_ pec s = (s', Some e) -> pnv_pec_stk_realize_ pec s = (s', Some e).
Proof.
  unfold qdev_realize. destruct (pnv_pec_stk_realize_ pec s) as [s0 [e0|]];
    intros [= <- <-] || discriminate. reflexivity.
Qed.

Lemma qdev_realize_succeeds (pec : PnvPhb4PecState) (s s' : PnvPhb4PecStack) :
  qdev_realize_ pec s = (s', None) ->
  s' = set_stk_realized (fst (pnv_pec_stk_realize_ pec s))
  /\ snd (pnv_pec_stk_realize_ pec s) = None.
Proof.
  unfold qdev_realize. destruct (pnv_pec_stk_realize_ pec s) as [s0 [e0|]];
    intros [= <-] || discriminate. split; reflexivity.
Qed.

(** When the first loop stops on an error, it stops at the first stack
    whose realisation fails: the stacks before it are realised, the stacks
    after it are as they were. *)
Lemma create_stacks_fails (fuel : nat) :
  forall (i : Z) (pec pec' : PnvPhb4PecState) (j : Z) (e : Error),
    0 <= i -> i + Z.of_nat fuel <= Z.of_nat (length (stacks pec)) ->
    create_stacks_ fuel i pec = Returns (pec', j, Some e) ->
    i <= j < i + Z.of_nat fuel
    /\ (forall k : Z, i <= k < j ->
          exists old,
            stacks pec !! Z.to_nat k = Some old
            /\ stacks pec' !! Z.to_nat k =
               Some (set_stk_realized
                       (fst (pnv_pec_stk_realize_ pec (set_stk_pec (set_stack_no old k))))))
    /\ (exists old s,
          stacks pec !! Z.to_nat j = Some old
          /\ pnv_pec_stk_realize_ pec (set_stk_pec (set_stack_no old j)) = (s, Some e)
          /\ stacks pec' !! Z.to_nat j = Some s)
    /\ (forall k : nat, (k < Z.to_nat i)%nat \/ (Z.to_nat j < k)%nat ->
          stacks pec' !! k = stacks pec !! k).
Proof.
  induction fuel as [|fuel IH]; intros i pec pec' j e Hi Hlen; cbn [create_stacks].
  - discriminate.
  - destruct (array_get_in (stacks pec) i) as [old [Hold Hget]]; [lia|].
    rewrite Hget. cbn [obind].
    destruct (qdev_realize_ pec (set_stk_pec (set_stack_no old i))) as [stack' [e'|]] eqn:Hq;
      rewrite array_set_in by lia; cbn [obind].
    + intros [= <- <- <-]. apply qdev_realize_fails in Hq.
      split; [lia|]. split; [intros k Hk; lia|]. split.
      * exists old, stack'. split; [exact Hold|]. split; [exact Hq|].
        cbn [stacks set_stacks]. apply list_lookup_insert_eq. lia.
      * intros k Hk. cbn [stacks set_stacks]. apply list_lookup_insert_ne. lia.
    + set (pec1 := set_stacks pec (<[Z.to_nat i := stack']> (stacks pec))).
      intros Hrun.
      assert (Hcfg : forall s, pnv_pec_stk_realize_ pec1 s = pnv_pec_stk_realize_ pec s)
        by (intros s0; apply stk_realize_config; reflexivity).
      assert (Hother : forall k : nat, k <> Z.to_nat i ->
                 stacks pec1 !! k = stacks pec !! k).
      { intros k Hk. unfold pec1. cbn [stacks set_stacks].
        apply list_lookup_insert_ne. congruence. }
      assert (Hself : stacks pec1 !! Z.to_nat i = Some stack').
      { unfold pec1. cbn [stacks set_stacks]. apply list_lookup_insert_eq. lia. }
      apply IH in Hrun as (Hj & Hbelow & Hat & Hout).
      * split; [lia|]. split; [|split].
        -- intros k Hk. destruct (Z.eq_dec k i) as [->|Hne].
           ++ exists old. split; [exact Hold|].
              apply qdev_realize_succeeds in Hq as [-> _].
              rewrite Hout by lia. exact Hself.
           ++ destruct (Hbelow k) as [old' [Hold' Hnew]]; [lia|].
              exists old'. rewrite <- Hcfg. split; [|exact Hnew].
              rewrite <- Hold'. symmetry. apply Hother. lia.
        -- destruct Hat as [old' [s [Hold' [Hs Hnew]]]].
           exists old', s. rewrite <- Hcfg. split; [|split; assumption].
           rewrite <- Hold'. symmetry. apply Hother. lia.
        -- intros k Hk. rewrite Hout by lia. apply Hother. lia.
      * lia.
      * unfold pec1. cbn [stacks set_stacks]. rewrite length_insert. lia.
Qed.

(** The second loop unparents the stacks [i .. i + fuel) and leaves the
    others alone. *)
Lemma unparent_stacks_full (fuel : nat) :
  forall (i : Z) (pec : PnvPhb4PecState),
    0 <= i -> i + Z.of_nat fuel <= Z.of_nat (length (stacks pec)) ->
    exists pec',
      unparent_stacks fuel i pec = Returns pec'
      /\ same_but_stacks pec pec'
      /\ (forall k : nat, (k < Z.to_nat i)%nat \/ (Z.to_nat i + fuel <= k)%nat ->
            stacks pec' !! k = stacks pec !! k)
      /\ (forall k : Z, i <= k < i + Z.of_nat fuel ->
            exists old,
              stacks pec !! Z.to_nat k = Some old
              /\ stacks pec' !! Z.to_nat k = Some (object_unparent old)).
Proof.
  induction fuel as [|fuel IH]; intros i pec Hi Hlen.
  - exists pec. split; [reflexivity|]. split; [apply same_but_stacks_refl|].
    split; [reflexivity|]. intros k Hk. lia.
  - cbn [unparent_stacks].
    destruct (array_get_in (stacks pec) i) as [old [Hold Hget]]; [lia|].
    rewrite Hget. cbn [obind]. rewrite array_set_in by lia. cbn [obind].
    set (pec1 := set_stacks pec (<[Z.to_nat i := object_unparent old]> (stacks pec))).
    assert (Hother : forall k : nat, k <> Z.to_nat i ->
               stacks pec1 !! k = stacks pec !! k).
    { intros k Hk. unfold pec1. cbn [stacks set_stacks].
      apply list_lookup_insert_ne. congruence. }
    destruct (IH (i + 1) pec1) as [pec' (Hrun & Hsame & Hout & Hin)].
    { lia. }
    { unfold pec1. cbn [stacks set_stacks]. rewrite length_insert. lia. }
    exists pec'. split; [exact Hrun|].
    split; [eapply same_but_stacks_trans; [apply same_but_stacks_set | exact Hsame]|].
    split.
    + intros k Hk. rewrite Hout by lia. apply Hother. lia.
    + intros k Hk. destruct (Z.eq_dec k i) as [->|Hne].
      * exists old. split; [exact Hold|]. rewrite Hout by lia.
        unfold pec1. cbn [stacks set_stacks]. apply list_lookup_insert_eq. lia.
      * destruct (Hin k) as [old' [Hold' Hnew]]; [lia|].
        exists old'. split; [|exact Hnew].
        rewrite <- Hold'. symmetry. apply Hother. lia.
Qed.

(** What the realisation of a stack leaves alone, and what it attaches. *)
Lemma stk_realize_fields (pec : PnvPhb4PecState) (s : PnvPhb4PecStack) :
  stack_no (fst (pnv_pec_stk_realize_ pec s)) = stack_no s
  /\ stk_pec (fst (pnv_pec_stk_realize_ pec s)) = stk_pec s
  /\ stk_realized (fst (pnv_pec_stk_realize_ pec s)) = stk_realized s
  /\ stk_parented (fst (pnv_pec_stk_realize_ pec s)) = stk_parented s.
Proof.
  unfold pnv_pec_stk_realize, pnv_pec_stk_default_phb_realize.
  destruct defaults_enabled; cbn [negb]; [|repeat split].
  destruct (sysbus_realize _); repeat split.
Qed.

Lemma stk_realize_error (pec : PnvPhb4PecState) (s s' : PnvPhb4PecStack) (e : Error) :
  pnv_pec_stk_realize_ pec s = (s', Some e) ->
  defaults_enabled = true
  /\ exists p,
       phb s' = Some p
       /\ sysbus_realize p = Some e
       /\ phb_chip_id p = chip_id pec
       /\ phb_index p = derive_phb_index (index pec) (stack_no s)
       /\ phb_version p = PNV_PHB4_VERSION
       /\ phb_stack p = stack_no s
       /\ phb_realized p = false.
Proof.
  unfold pnv_pec_stk_realize, pnv_pec_stk_default_phb_realize.
  destruct defaults_enabled; cbn [negb]; [|discriminate].
  destruct (sysbus_realize _) as [e'|] eqn:Hsr; [|discriminate].
  intros [= <- <-]. split; [reflexivity|].
  eexists. split; [reflexivity|]. split; [exact Hsr|]. repeat split.
Qed.

(** [pnv_pec_realize] for a valid index, path by path: either every live
    stack is realised, the other stacks are unparented and the two regions
    are initialised; or the realisation of a stack fails and the function
    returns from there. *)
Lemma realize_paths (pec : PnvPhb4PecState) (n : Z) :
  stacks_fit = true ->
  pec_sized pec = true ->
  0 <= index pec < chip_num_pecs pec ->
  pnv_pec_num_stacks !! Z.to_nat (index pec) = Some n ->
  exists pec' err,
    pnv_pec_realize_ pec = Returns (pec', err)
    /\ (index pec' = index pec /\ chip_id pec' = chip_id pec
        /\ chip_num_pecs pec' = chip_num_pecs pec /\ num_stacks pec' = n
        /\ nest_regs pec' = nest_regs pec /\ pci_regs pec' = pci_regs pec
        /\ length (stacks pec') = length (stacks pec))
    /\ match err with
       | None =>
           nest_regs_mr pec' = Some (nest_region pec)
           /\ pci_regs_mr pec' = Some (pci_region pec)
           /\ (forall k : Z, 0 <= k < n ->
                 exists old,
                   stacks pec !! Z.to_nat k = Some old
                   /\ stacks pec' !! Z.to_nat k =
                      Some (set_stk_realized
                              (fst (pnv_pec_stk_realize_ pec
                                      (set_stk_pec (set_stack_no old k)))))
                   /\ snd (pnv_pec_stk_realize_ pec
                             (set_stk_pec (set_stack_no old k))) = None)
           /\ (forall k : Z, n <= k < PHB4_PEC_MAX_STACKS ->
                 exists old,
                   stacks pec !! Z.to_nat k = Some old
                   /\ stacks pec' !! Z.to_nat k = Some (object_unparent old))
       | Some e =>
           nest_regs_mr pec' = nest_regs_mr pec
           /\ pci_regs_mr pec' = pci_regs_mr pec
           /\ exists j,
             0 <= j < n
             /\ (forall k : Z, 0 <= k < j ->
                   exists old,
                     stacks pec !! Z.to_nat k = Some old
                     /\ stacks pec' !! Z.to_nat k =
                        Some (set_stk_realized
                                (fst (pnv_pec_stk_realize_ pec
                                        (set_stk_pec (set_stack_no old k))))))
             /\ (exists old s,
                   stacks pec !! Z.to_nat j = Some old
                   /\ pnv_pec_stk_realize_ pec (set_stk_pec (set_stack_no old j))
                      = (s, Some e)
                   /\ stacks pec' !! Z.to_nat j = Some s)
             /\ (forall k : nat, (Z.to_nat j < k)%nat ->
                   stacks pec' !! k = stacks pec !! k)
       end.
Proof.
  intros Hfit Hs Hidx Hn.
  pose proof (table_entry_fits _ _ Hfit Hn) as Hnb.
  pose proof (pec_sized_stacks pec Hs) as Hlen.
  unfold pnv_pec_realize.
  destruct (index pec >=? chip_num_pecs pec) eqn:E; [lia|].
  cbn [pecc_num_stacks pnv_pec_class_init].
  rewrite (array_get_lookup _ _ _ (proj1 Hidx) Hn). cbn [obind].
  cbn [num_stacks set_num_stacks].
  set (pec0 := set_num_stacks pec n).
  assert (Hcfg : forall s, pnv_pec_stk_realize_ pec0 s = pnv_pec_stk_realize_ pec s)
    by (intros s0; apply stk_realize_config; reflexivity).
  destruct (create_stacks_spec defaults_enabled sysbus_realize derive_phb_index
              (Z.to_nat n) 0 pec0)
    as [pec1 [j [err (Hrun & Hsame & Hout & Hin)]]].
  { lia. }
  { unfold pec0. cbn [stacks set_num_stacks]. lia. }
  rewrite Hrun. cbn [obind].
  destruct err as [e|].
  - exists pec1, (Some e). split; [reflexivity|].
    destruct Hsame as (H1 & H2 & H3 & H4 & H5 & H6 & H7 & H8 & H9).
    split; [repeat split; assumption|].
    split; [exact H7|]. split; [exact H8|].
    apply create_stacks_fails in Hrun as (Hj & Hbelow & Hat & Habove);
      [|lia|unfold pec0; cbn [stacks set_num_stacks]; lia].
    exists j. split; [lia|]. split; [|split].
    + intros k Hk. destruct (Hbelow k Hk) as [old [Hold Hnew]].
      exists old. rewrite <- Hcfg. split; assumption.
    + destruct Hat as [old [s [Hold [Hr Hnew]]]].
      exists old, s. rewrite <- Hcfg. repeat split; assumption.
    + intros k Hk. apply Habove. right. exact Hk.
  - destruct (Hin eq_refl) as [Hj Hall]. assert (j = n) as -> by lia.
    destruct (unparent_stacks_full (Z.to_nat (PHB4_PEC_MAX_STACKS - n)) n pec1)
      as [pec2 (Hun & Hsame2 & Hout2 & Hin2)].
    { lia. }
    { destruct Hsame as (_ & _ & _ & _ & _ & _ & _ & _ & Hl). rewrite Hl.
      unfold pec0. cbn [stacks set_num_stacks]. lia. }
    rewrite Hun. cbn [obind].
    pose proof (same_but_stacks_trans _ _ _ Hsame Hsame2) as Hs02.
    assert (Hnr : nest_region pec2 = nest_region pec).
    { destruct Hs02 as (Hi & Hc & _). unfold nest_region. rewrite Hi, Hc. reflexivity. }
    assert (Hpr : pci_region pec2 = pci_region pec).
    { destruct Hs02 as (Hi & Hc & _). unfold pci_region. rewrite Hi, Hc. reflexivity. }
    eexists _, None. split; [reflexivity|].
    split.
    { destruct Hs02 as (H1 & H2 & H3 & H4 & H5 & H6 & H7 & H8 & H9).
      repeat split; cbn; assumption. }
    split; [cbn; f_equal; exact Hnr|]. split; [cbn; f_equal; exact Hpr|].
    cbn [stacks set_pci_regs_mr set_nest_regs_mr].
    split.
    + intros k Hk. destruct (Hall k) as [old (Hold & Hq & Hnew)]; [lia|].
      exists old. split; [exact Hold|].
      rewrite Hout2 by lia. rewrite Hnew, Hq. cbn [fst]. rewrite Hcfg.
      split; [reflexivity|].
      apply qdev_realize_succeeds in Hq as [_ Hok]. rewrite <- Hcfg. exact Hok.
    + intros k Hk. destruct (Hin2 k) as [old (Hold & Hnew)]; [lia|].
      exists old. split; [|exact Hnew].
      rewrite <- Hold. symmetry. apply Hout. lia.
Qed.

Lemma realize_returns_entry (pec : PnvPhb4PecState)
    (r : PnvPhb4PecState * option Error) :
  index pec < chip_num_pecs pec ->
  pnv_pec_realize_ pec = Returns r ->
  0 <= index pec /\ exists n, pnv_pec_num_stacks !! Z.to_nat (index pec) = Some n.
Proof.
  intros Hidx. unfold pnv_pec_realize.
  destruct (index pec >=? chip_num_pecs pec) eqn:E; [lia|].
  cbn [pecc_num_stacks pnv_pec_class_init].
  destruct (array_get pnv_pec_num_stacks (index pec)) as [n| |] eqn:Hget;
    cbn [obind]; try discriminate.
  intros _. apply array_get_returns in Hget as [Hi Hn].
  split; [lia | exists n; exact Hn].
Qed.

(** X1. A successful realisation leaves the PEC in this shape: the first
    [num_stacks] stacks are numbered by their position, linked to the PEC
    and realised; every other stack is unparented and otherwise untouched;
    the two XSCOM regions are initialised with the names
    "xscom-pec-<chip>.<index>-nest" and "-pci" and the sizes of the banks;
    the registers are as they were. *)
Theorem realize_success_shape (pec pec' : PnvPhb4PecState) :
  stacks_fit = true ->
  pec_sized pec = true ->
  pnv_pec_realize_ pec = Returns (pec', None) ->
  pnv_pec_num_stacks !! Z.to_nat (index pec) = Some (num_stacks pec')
  /\ nest_regs pec' = nest_regs pec
  /\ pci_regs pec' = pci_regs pec
  /\ nest_regs_mr pec' = Some (nest_region pec)
  /\ pci_regs_mr pec' = Some (pci_region pec)
  /\ (forall k : Z, 0 <= k < num_stacks pec' ->
        exists old s,
          stacks pec !! Z.to_nat k = Some old
          /\ stacks pec' !! Z.to_nat k = Some s
          /\ stack_no s = k
          /\ stk_pec s = true
          /\ stk_realized s = true
          /\ stk_parented s = stk_parented old)
  /\ (forall k : Z, num_stacks pec' <= k < PHB4_PEC_MAX_STACKS ->
        exists old,
          stacks pec !! Z.to_nat k = Some old
          /\ stacks pec' !! Z.to_nat k = Some (object_unparent old)).
Proof.
  intros Hfit Hs Hreal.
  destruct (realize_done _ _ _ _ _ Hreal) as [Hidx [n [Hn _]]].
  destruct (realize_paths pec n Hfit Hs Hidx Hn) as [p [err (Hr & Hsame & Hcase)]].
  rewrite Hreal in Hr. injection Hr as <- <-.
  destruct Hsame as (_ & _ & _ & Hns & Hnr & Hpr & _).
  destruct Hcase as (Hnm & Hpm & Hlive & Hrest).
  rewrite Hns. do 5 (split; [assumption|]). split.
  - intros k Hk. destruct (Hlive k Hk) as [old (Hold & Hnew & _)].
    eexists old, _. split; [exact Hold|]. split; [exact Hnew|].
    destruct (stk_realize_fields pec (set_stk_pec (set_stack_no old k)))
      as (H1 & H2 & H3 & H4).
    cbn [stack_no stk_pec stk_realized stk_parented set_stk_realized].
    rewrite H1, H2, H4. repeat split.
  - exact Hrest.
Qed.

(** X2. When the realisation of a PEC with a valid index fails, it is the
    PHB of one live stack [j] that [sysbus_realize] refused: the error is
    the one it left, the stacks before [j] are realised, stack [j] keeps
    the unrealised PHB and is not marked realised, the stacks after [j]
    are as they were (neither realised nor unparented), and no XSCOM
    region is initialised. *)
Theorem realize_stack_failure (pec pec' : PnvPhb4PecState) (e : Error) :
  stacks_fit = true ->
  pec_sized pec = true ->
  index pec < chip_num_pecs pec ->
  pnv_pec_realize_ pec = Returns (pec', Some e) ->
  defaults_enabled = true
  /\ nest_regs_mr pec' = nest_regs_mr pec
  /\ pci_regs_mr pec' = pci_regs_mr pec
  /\ nest_regs pec' = nest_regs pec
  /\ pci_regs pec' = pci_regs pec
  /\ exists j old s p,
       0 <= j < num_stacks pec'
       /\ stacks pec !! Z.to_nat j = Some old
       /\ stacks pec' !! Z.to_nat j = Some s
       /\ stk_realized s = stk_realized old
       /\ phb s = Some p
       /\ sysbus_realize p = Some e
       /\ phb_index p = derive_phb_index (index pec) j
       /\ phb_realized p = false
       /\ (forall k : Z, 0 <= k < j ->
             exists sk, stacks pec' !! Z.to_nat k = Some sk /\ stk_realized sk = true)
       /\ (forall k : nat, (Z.to_nat j < k)%nat -> stacks pec' !! k = stacks pec !! k).
Proof.
  intros Hfit Hs Hidx Hreal.
  destruct (realize_returns_entry pec _ Hidx Hreal) as [H0 [n Hn]].
  destruct (realize_paths pec n Hfit Hs (conj H0 Hidx) Hn)
    as [p [err (Hr & Hsame & Hcase)]].
  rewrite Hreal in Hr. injection Hr as <- <-.
  destruct Hsame as (_ & _ & _ & Hns & Hnr & Hpr & _).
  destruct Hcase as (Hnm & Hpm & j & Hj & Hbelow & Hat & Habove).
  destruct Hat as [old [s (Hold & Hstk & Hnew)]].
  destruct (stk_realize_error _ _ _ _ Hstk) as [Hdef [q (Hq1 & Hq2 & _ & Hq4 & _ & _ & Hq7)]].
  pose proof (stk_realize_fields pec (set_stk_pec (set_stack_no old j))) as Hf.
  rewrite Hstk in Hf. cbn [fst] in Hf. destruct Hf as (_ & _ & Hf3 & _).
  do 5 (split; [assumption|]).
  exists j, old, s, q. rewrite Hns.
  do 3 (split; [assumption|]). split; [exact Hf3|].
  do 2 (split; [assumption|]). split; [exact Hq4|]. split; [exact Hq7|].
  split; [|exact Habove].
  intros k Hk. destruct (Hbelow k Hk) as [o [_ Hk']].
  eexists. split; [exact Hk' | reflexivity].
Qed.

End RealizePaths.

(** X3. With the default devices disabled, the realisation of a PEC with a
    valid index cannot fail, whatever [sysbus_realize] would do, and it
    gives no stack a PHB: every live stack is realised with the PHB slot
    it had. *)
Theorem realize_without_defaults {hdr : Phb4Headers}
    (sysbus_realize : PnvPHB4 -> option Error) (derive_phb_index : Z -> Z -> Z)
    (pec : PnvPhb4PecState) (n : Z) :
  stacks_fit = true ->
  pec_sized pec = true ->
  0 <= index pec < chip_num_pecs pec ->
  pnv_pec_num_stacks !! Z.to_nat (index pec) = Some n ->
  exists pec',
    pnv_pec_realize false sysbus_realize derive_phb_index pec = Returns (pec', None)
    /\ forall k : Z, 0 <= k < n ->
         exists old s,
           stacks pec !! Z.to_nat k = Some old
           /\ stacks pec' !! Z.to_nat k = Some s
           /\ phb s = phb old
           /\ stk_realized s = true.
Proof.
  intros Hfit Hs Hidx Hn.
  destruct (realize_paths false sysbus_realize derive_phb_index pec n Hfit Hs Hidx Hn)
    as [pec' [err (Hr & _ & Hcase)]].
  destruct err as [e|].
  - destruct Hcase as (_ & _ & j & _ & _ & [old [s (_ & Hstk & _)]] & _).
    apply stk_realize_error in Hstk as [Hdef _]. discriminate.
  - exists pec'. split; [exact Hr|].
    destruct Hcase as (_ & _ & Hlive & _).
    intros k Hk. destruct (Hlive k Hk) as [old (Hold & Hnew & _)].
    eexists old, _. split; [exact Hold|]. split; [exact Hnew|].
    split; reflexivity.
Qed.

(** X15. After a successful realisation with the default devices, every
    live stack owns a realised PHB4 configured from the PEC: the chip of
    the PEC, the PHB index derived from the PEC's index and the stack's
    number, the version of the class, and a link back to the stack. *)
Theorem realize_default_phbs {hdr : Phb4Headers}
    (sysbus_realize : PnvPHB4 -> option Error) (derive_phb_index : Z -> Z -> Z)
    (pec pec' : PnvPhb4PecState) (k : Z) :
  stacks_fit = true ->
  pec_sized pec = true ->
  pnv_pec_realize true sysbus_realize derive_phb_index pec = Returns (pec', None) ->
  0 <= k < num_stacks pec' ->
  exists s p,
    stacks pec' !! Z.to_nat k = Some s
    /\ phb s = Some p
    /\ phb_chip_id p = chip_id pec'
    /\ phb_index p = derive_phb_index (index pec') k
    /\ phb_version p = PNV_PHB4_VERSION
    /\ phb_stack p = stack_no s
    /\ stack_no s = k
    /\ phb_realized p = true.
Proof.
  intros Hfit Hs Hreal Hk.
  destruct (realize_done _ _ _ _ _ Hreal) as [Hidx [n [Hn _]]].
  destruct (realize_paths true sysbus_realize derive_phb_index pec n Hfit Hs Hidx Hn)
    as [p' [err (Hr & Hsame & Hcase)]].
  rewrite Hreal in Hr. injection Hr as <- <-.
  destruct Hsame as (Hi & Hc & _ & Hns & _).
  destruct Hcase as (_ & _ & Hlive & _).
  destruct (Hlive k) as [old (_ & Hnew & Hok)]; [lia|].
  unfold pnv_pec_stk_realize, pnv_pec_stk_default_phb_realize in Hnew, Hok.
  cbn [negb] in Hnew, Hok.
  destruct (sysbus_realize _) as [e|]; [discriminate|].
  eexists _, _. split; [exact Hnew|].
  cbn. rewrite Hi, Hc. repeat split.
Qed.

(** Realisation never touches the registers, whatever its outcome. *)
Lemma realize_keeps_banks {hdr : Phb4Headers} (defaults_enabled : bool)
    (sysbus_realize : PnvPHB4 -> option Error) (derive_phb_index : Z -> Z -> Z)
    (pec pec' : PnvPhb4PecState) (err : option Error) :
  stacks_fit = true ->
  pec_sized pec = true ->
  pnv_pec_realize defaults_enabled sysbus_realize derive_phb_index pec
  = Returns (pec', err) ->
  nest_regs pec' = nest_regs pec /\ pci_regs pec' = pci_regs pec.
Proof.
  intros Hfit Hs Hreal.
  destruct (Z.lt_ge_cases (index pec) (chip_num_pecs pec)) as [Hlt|Hge].
  - destruct (realize_returns_entry _ _ _ pec _ Hlt Hreal) as [H0 [n Hn]].
    destruct (realize_paths defaults_enabled sysbus_realize derive_phb_index
                pec n Hfit Hs (conj H0 Hlt) Hn)
      as [p [e (Hr & (_ & _ & _ & _ & Hnr & Hpr & _) & _)]].
    rewrite Hreal in Hr. injection Hr as <- <-. split; assumption.
  - unfold pnv_pec_realize in Hreal.
    destruct (index pec >=? chip_num_pecs pec) eqn:E; [|lia].
    injection Hreal as <- _. split; reflexivity.
Qed.

Lemma pec_create_sized {hdr : Phb4Headers} (chip idx num_pecs : Z) :
  header_counts_ok = true -> pec_sized (pec_create chip idx num_pecs) = true.
Proof.
  unfold header_counts_ok, pec_sized. rewrite !andb_true_iff, !Z.leb_le.
  intros [[H1 H2] H3].
  cbn [pec_create pnv_pec_instance_init nest_regs pci_regs stacks].
  rewrite !length_replicate, !Z.eqb_eq. lia.
Qed.

(** X4. Every register of a PEC that was created and then realised --
    successfully or not -- reads zero: a read anywhere inside the window of
    either bank returns 0. *)
Theorem fresh_pec_reads_zero {hdr : Phb4Headers} (defaults_enabled : bool)
    (sysbus_realize : PnvPHB4 -> option Error) (derive_phb_index : Z -> Z -> Z)
    (chip idx num_pecs : Z) (pec : PnvPhb4PecState) (err : option Error)
    (b : bank) (addr : Z) :
  header_counts_ok = true ->
  regs_count_ok = true ->
  stacks_fit = true ->
  pnv_pec_realize defaults_enabled sysbus_realize derive_phb_index
    (pec_create chip idx num_pecs) = Returns (pec, err) ->
  0 <= addr < 8 * bank_regs_count b ->
  read (xscom_ops b) pec addr 8 = Returns 0.
Proof.
  intros Hh Hc Hfit Hreal Haddr.
  pose proof (pec_create_sized chip idx num_pecs Hh) as Hs.
  destruct (realize_keeps_banks _ _ _ _ _ _ Hfit Hs Hreal) as [Hn Hp].
  assert (Hshift : 0 <= Z.shiftr addr 3 < bank_regs_count b).
  { rewrite Z.shiftr_div_pow2 by lia. change (2 ^ 3) with 8.
    split; [apply Z.div_pos; lia | apply Z.div_lt_upper_bound; lia]. }
  assert (Hcount : bank_regs_count b <= 2 ^ 32).
  { unfold regs_count_ok in Hc. apply andb_true_iff in Hc as [H1 H2].
    destruct b; cbn [bank_regs_count]; lia. }
  rewrite read_unfold, uint32_t_small by lia.
  apply array_get_lookup; [lia|].
  destruct b; cbn [bank_regs bank_regs_count] in *; rewrite ?Hn, ?Hp;
    cbn [pec_create pnv_pec_instance_init nest_regs pci_regs];
    apply lookup_replicate_2; lia.
Qed.

(** ** How accesses compose *)

Section BankComposition.
Context {hdr : Phb4Headers}.

Lemma set_bank_regs_sized (b : bank) (pec : PnvPhb4PecState) (i : nat) (v : Z) :
  pec_sized pec = true ->
  pec_sized (set_bank_regs b pec (<[i := v]> (bank_regs b pec))) = true.
Proof.
  unfold pec_sized. intros H.
  destruct b; cbn [set_bank_regs bank_regs set_nest_regs set_pci_regs
                   nest_regs pci_regs stacks];
    rewrite length_insert; exact H.
Qed.

Lemma whitelisted_index (b : bank) (pec : PnvPhb4PecState) (r : Z) :
  labels_in_bounds = true -> pec_sized pec = true ->
  In r (write_whitelist b) ->
  (Z.to_nat r < length (bank_regs b pec))%nat.
Proof.
  intros Hl Hs Hin. pose proof (whitelisted_in_bounds b r Hl Hin).
  pose proof (pec_sized_bank b pec Hs). lia.
Qed.

(** X5. Of two writes to the same whitelisted register only the second
    shows: the state is the one that the second write alone would leave. *)
Theorem write_overwrites (b : bank) (pec : PnvPhb4PecState) (addr v1 v2 : Z) :
  labels_in_bounds = true ->
  pec_sized pec = true ->
  In (uint32_t (Z.shiftr addr 3)) (write_whitelist b) ->
  exists p1 p2,
    write (xscom_ops b) pec addr v1 8 = Returns (p1, [])
    /\ write (xscom_ops b) p1 addr v2 8 = Returns (p2, [])
    /\ write (xscom_ops b) pec addr v2 8 = Returns (p2, []).
Proof.
  intros Hl Hs Hin. eexists _, _.
  split; [apply write_stored; assumption|].
  rewrite (write_stored b pec addr v2 8 Hl Hs Hin).
  split; [|reflexivity].
  rewrite write_stored; [|exact Hl|apply set_bank_regs_sized; exact Hs|exact Hin].
  rewrite bank_regs_set_same, list_insert_insert_eq.
  destruct b; reflexivity.
Qed.

(** X6. Writes to two different whitelisted registers -- of one bank or of
    both -- commute. *)
Theorem writes_commute (b1 b2 : bank) (pec : PnvPhb4PecState) (a1 v1 a2 v2 : Z) :
  labels_in_bounds = true ->
  pec_sized pec = true ->
  In (uint32_t (Z.shiftr a1 3)) (write_whitelist b1) ->
  In (uint32_t (Z.shiftr a2 3)) (write_whitelist b2) ->
  b1 <> b2 \/ uint32_t (Z.shiftr a1 3) <> uint32_t (Z.shiftr a2 3) ->
  exists p1 p2 p,
    write (xscom_ops b1) pec a1 v1 8 = Returns (p1, [])
    /\ write (xscom_ops b2) p1 a2 v2 8 = Returns (p, [])
    /\ write (xscom_ops b2) pec a2 v2 8 = Returns (p2, [])
    /\ write (xscom_ops b1) p2 a1 v1 8 = Returns (p, []).
Proof.
  intros Hl Hs H1 H2 Hne. eexists _, _, _.
  split; [apply write_stored; assumption|].
  split; [apply write_stored; [exact Hl|apply set_bank_regs_sized; exact Hs|exact H2]|].
  split; [apply write_stored; assumption|].
  rewrite write_stored; [|exact Hl|apply set_bank_regs_sized; exact Hs|exact H1].
  pose proof (uint32_t_range (Z.shiftr a1 3)). pose proof (uint32_t_range (Z.shiftr a2 3)).
  destruct b1, b2; cbn [set_bank_regs bank_regs set_nest_regs set_pci_regs
                        nest_regs pci_regs index chip_id chip_num_pecs
                        nest_regs_mr pci_regs_mr num_stacks stacks];
    try reflexivity;
    (destruct Hne as [Hne|Hne]; [congruence|]);
    rewrite list_insert_insert_ne by lia; reflexivity.
Qed.

(** X7. After a write to a whitelisted register, a read of any address of
    any bank returns the value written if it decodes to that register of
    that bank, and what it returned before otherwise. *)
Theorem read_over_write (b b' : bank) (pec : PnvPhb4PecState) (addr v addr' : Z) :
  labels_in_bounds = true ->
  pec_sized pec = true ->
  In (uint32_t (Z.shiftr addr 3)) (write_whitelist b) ->
  exists pec',
    write (xscom_ops b) pec addr v 8 = Returns (pec', [])
    /\ (b' = b /\ uint32_t (Z.shiftr addr' 3) = uint32_t (Z.shiftr addr 3) ->
        read (xscom_ops b') pec' addr' 8 = Returns v)
    /\ (b' <> b \/ uint32_t (Z.shiftr addr' 3) <> uint32_t (Z.shiftr addr 3) ->
        read (xscom_ops b') pec' addr' 8 = read (xscom_ops b') pec addr' 8).
Proof.
  intros Hl Hs Hin. eexists. split; [apply write_stored; assumption|].
  pose proof (whitelisted_index b pec _ Hl Hs Hin) as Hlt.
  pose proof (uint32_t_range (Z.shiftr addr 3)) as Hr.
  pose proof (uint32_t_range (Z.shiftr addr' 3)) as Hr'.
  split.
  - intros [-> Heq]. rewrite read_unfold, bank_regs_set_same, Heq.
    apply array_get_set_eq. lia.
  - intros Hne. rewrite !read_unfold.
    destruct b, b'; try reflexivity;
      (destruct Hne as [Hne|Hne]; [congruence|]);
      cbn [bank_regs set_bank_regs set_nest_regs set_pci_regs nest_regs pci_regs];
      unfold array_get; rewrite list_lookup_insert_ne by lia; reflexivity.
Qed.

Lemma decode_word (q j k : Z) :
  0 <= j < 8 -> uint32_t (Z.shiftr (8 * q + j + k * 2 ^ 35) 3) = uint32_t q.
Proof.
  intros Hj. rewrite Z.shiftr_div_pow2 by lia. change (2 ^ 3) with 8.
  replace (8 * q + j + k * 2 ^ 35) with (j + (q + k * 2 ^ 32) * 8) by lia.
  rewrite Z.div_add by lia. rewrite (Z.div_small j 8) by lia.
  unfold uint32_t. rewrite Z.add_0_l. apply Z.mod_add. lia.
Qed.

(** X8. The handlers look at bits 3 to 34 of the address only: the offset
    inside the 8-byte word, whatever is added in multiples of 2^35, and the
    access size change neither what a read returns nor the state that a
    write leaves. *)
Theorem address_decoding (b : bank) (pec : PnvPhb4PecState) (q j k v size : Z) :
  0 <= j < 8 ->
  read (xscom_ops b) pec (8 * q + j + k * 2 ^ 35) size
  = read (xscom_ops b) pec (8 * uint32_t q) 8
  /\ state_after (write (xscom_ops b) pec (8 * q + j + k * 2 ^ 35) v size)
     = state_after (write (xscom_ops b) pec (8 * uint32_t q) v 8).
Proof.
  intros Hj.
  assert (H0 : uint32_t (Z.shiftr (8 * uint32_t q) 3) = uint32_t q).
  { replace (8 * uint32_t q) with (8 * uint32_t q + 0 + 0 * 2 ^ 35) by lia.
    rewrite decode_word by lia. apply uint32_t_small, uint32_t_range. }
  split.
  - rewrite !read_unfold, decode_word, H0 by assumption. reflexivity.
  - rewrite !write_unfold. cbn zeta. rewrite decode_word, H0 by assumption.
    destruct (existsb _ _); [|reflexivity].
    destruct (array_set _ _ _); reflexivity.
Qed.

Lemma write_total (b : bank) (pec : PnvPhb4PecState) (addr v size : Z) :
  labels_in_bounds = true -> pec_sized pec = true ->
  exists pec' log,
    write (xscom_ops b) pec addr v size = Returns (pec', log)
    /\ pec_sized pec' = true.
Proof.
  intros Hl Hs.
  destruct (existsb (Z.eqb (uint32_t (Z.shiftr addr 3))) (write_whitelist b)) eqn:E.
  - apply whitelisted_iff in E. eexists _, _.
    split; [apply write_stored; assumption | apply set_bank_regs_sized; exact Hs].
  - eexists _, _. split; [|exact Hs]. apply write_rejected.
    intros Hin. apply whitelisted_iff in Hin. congruence.
Qed.

End BankComposition.

Section RunSafety.
Context {hdr : Phb4Headers}.
Variable derive_phb_index : Z -> Z -> Z.

(** X9. No sequence of XSCOM accesses made of writes at any address and of
    reads inside the windows ever leaves the arrays: every call returns,
    and the banks keep their lengths. *)
Theorem xscom_accesses_safe (calls : list pec_call) (pec : PnvPhb4PecState) :
  labels_in_bounds = true ->
  regs_count_ok = true ->
  pec_sized pec = true ->
  Forall access_safe calls ->
  exists pec',
    pec_run derive_phb_index pec calls = Returns pec'
    /\ pec_sized pec' = true.
Proof.
  intros Hl Hc. revert pec.
  induction calls as [|c calls IH]; intros pec Hs Hall; cbn [pec_run].
  - exists pec. split; [reflexivity | exact Hs].
  - inversion Hall as [|? ? Hc1 Hrest]; subst.
    assert (Hstep : exists q, pec_step derive_phb_index pec c = Returns q
                              /\ pec_sized q = true).
    { destruct c as [[b addr | b addr val] | o fdt off]; cbn [access_safe] in Hc1;
        [| |contradiction]; cbn [pec_step xscom_step].
      - assert (Hshift : 0 <= Z.shiftr addr 3 < bank_regs_count b).
        { rewrite Z.shiftr_div_pow2 by lia. change (2 ^ 3) with 8.
          split; [apply Z.div_pos; lia | apply Z.div_lt_upper_bound; lia]. }
        assert (Hcount : bank_regs_count b <= 2 ^ 32).
        { unfold regs_count_ok in Hc. apply andb_true_iff in Hc as [H1 H2].
          destruct b; cbn [bank_regs_count]; lia. }
        rewrite read_unfold, uint32_t_small by lia.
        destruct (array_get_in (bank_regs b pec) (Z.shiftr addr 3)) as [v [_ Hv]].
        { rewrite (pec_sized_bank b pec Hs). exact Hshift. }
        rewrite Hv. cbn [obind]. exists pec. split; [reflexivity | exact Hs].
      - destruct (write_total b pec addr val 8 Hl Hs) as [q [log [Hw Hq]]].
        rewrite Hw. cbn [obind]. exists q. split; [reflexivity | exact Hq]. }
    destruct Hstep as [q [Hq Hsq]]. rewrite Hq. cbn [obind].
    apply IH; assumption.
Qed.

End RunSafety.

(** ** The export: failures, repetition, frame, decoding *)

Lemma has_subnode_prepend (x c : fdt_node) (name : string) :
  has_subnode (prepend_subnode c x) name
  = String.eqb (node_name c) name || has_subnode x name.
Proof. reflexivity. Qed.


(** Plugging a node at one offset does not show at an offset that parts
    ways with it. *)
Lemma node_at_plug_diverge (p q : list nat) (a : fdt_node) :
  offsets_diverge p q -> forall fdt, node_at (plug fdt p a) q = node_at fdt q.
Proof.
  intros (r & i & j & p' & q' & Hne & -> & ->). unfold plug.
  induction r as [|h r IH]; intros fdt; cbn [app update_at node_at].
  - destruct (node_subnodes fdt !! i) as [c|] eqn:E; [|reflexivity].
    cbn [node_subnodes]. rewrite list_lookup_insert_ne by exact Hne. reflexivity.
  - destruct (node_subnodes fdt !! h) as [c|] eqn:E; [|rewrite E; reflexivity].
    cbn [node_subnodes].
    rewrite list_lookup_insert_eq by (eapply lookup_lt_Some; eauto).
    apply IH.
Qed.

Lemma be_to_cpu_be32 (v : Z) : 0 <= v < 2 ^ 32 -> be_to_cpu (cpu_to_be32 v) = v.
Proof.
  intros Hv. unfold be_to_cpu, cpu_to_be32. cbn [fold_left].
  change 255 with (Z.ones 8). rewrite !Z.land_ones by lia.
  rewrite !Z.shiftr_div_pow2 by lia.
  change (2 ^ 8) with 256. change (2 ^ 16) with 65536. change (2 ^ 24) with 16777216.
  change (2 ^ 32) with 4294967296 in Hv.
  Z.to_euclidean_division_equations. lia.
Qed.

Lemma be32_words_cons (v : Z) (rest : list Z) :
  be32_words (cpu_to_be32 v ++ rest) = be_to_cpu (cpu_to_be32 v) :: be32_words rest.
Proof. reflexivity. Qed.

Section ExportMore.
Context {hdr : Phb4Headers}.
Variable derive_phb_index : Z -> Z -> Z.

#[local] Abbreviation pec_node_ := (pec_node derive_phb_index).
#[local] Abbreviation pnv_pec_dt_xscom_ := (pnv_pec_dt_xscom derive_phb_index).

(** The export exits on a tree without the xscom node or with the PEC's
    node already in it, whatever else libfdt checks. *)
Lemma dt_xscom_exits (refuses : libfdt_oracle) (pec : PnvPhb4PecState)
    (fdt : fdt_node) (off : list nat) :
  node_at fdt off = None
  \/ (exists xscom, node_at fdt off = Some xscom
                    /\ has_subnode xscom (pbcq_name pec) = true) ->
  pnv_pec_dt_xscom_ refuses pec fdt off = Exits.
Proof.
  intros [Hx | [x [Hx Hh]]]; unfold pnv_pec_dt_xscom, fdt_add_subnode;
    cbn [pnv_pec_class_init xscom_nest_base]; rewrite Hx; [reflexivity|].
  unfold pbcq_name in Hh. rewrite Hh. reflexivity.
Qed.

(** The outcomes of the export when libfdt refuses nothing. *)
Lemma dt_xscom_cases (refuses : libfdt_oracle) (pec : PnvPhb4PecState)
    (fdt : fdt_node) (off : list nat) :
  never_refuses refuses ->
  num_stacks pec < 2 ^ 31 ->
  pnv_pec_dt_xscom_ refuses pec fdt off =
  match node_at fdt off with
  | None => Exits
  | Some xscom =>
      if has_subnode xscom (pbcq_name pec) then Exits
      else Returns (plug fdt off (prepend_subnode (pec_node_ pec) xscom), 0)
  end.
Proof.
  intros Hroom Hn. destruct (node_at fdt off) as [x|] eqn:Hx.
  - destruct (has_subnode x (pbcq_name pec)) eqn:Hh.
    + apply dt_xscom_exits. right. exists x. split; assumption.
    + apply dt_xscom_spec; assumption.
  - apply dt_xscom_exits. left. exact Hx.
Qed.

(** An export that returns has added the node of the PEC in front of the
    subnodes of the xscom node, whatever libfdt could have refused. *)
Lemma dt_xscom_returns (refuses : libfdt_oracle) (pec : PnvPhb4PecState)
    (fdt fdt' : fdt_node) (off : list nat) (r : Z) :
  num_stacks pec < 2 ^ 31 ->
  pnv_pec_dt_xscom_ refuses pec fdt off = Returns (fdt', r) ->
  r = 0
  /\ exists xscom,
       node_at fdt off = Some xscom
       /\ has_subnode xscom (pbcq_name pec) = false
       /\ fdt' = plug fdt off (prepend_subnode (pec_node_ pec) xscom).
Proof.
  intros Hn H.
  destruct (dt_xscom_refused derive_phb_index refuses pec fdt off) as [E|E]; [congruence|].
  rewrite E, (dt_xscom_cases no_refusal pec fdt off no_refusal_never Hn) in H.
  destruct (node_at fdt off) as [x|]; [|discriminate].
  destruct (has_subnode x (pbcq_name pec)) eqn:Hh; [discriminate|].
  injection H as <- <-. split; [reflexivity|]. exists x. auto.
Qed.


(** X11. Exporting a PEC a second time into the tree that the first export
    returned exits: the node of the PEC is already there. *)
Theorem dt_xscom_twice_exits (refuses refuses' : libfdt_oracle)
    (pec : PnvPhb4PecState) (fdt fdt' : fdt_node) (off : list nat) (r : Z) :
  num_stacks pec < 2 ^ 31 ->
  pnv_pec_dt_xscom_ refuses pec fdt off = Returns (fdt', r) ->
  pnv_pec_dt_xscom_ refuses' pec fdt' off = Exits.
Proof.
  intros Hn H.
  destruct (dt_xscom_returns refuses pec fdt fdt' off r Hn H)
    as [_ [x (Hx & Hh & ->)]].
  apply dt_xscom_exits. right. eexists. split.
  - apply node_at_plug. rewrite Hx. eauto.
  - rewrite has_subnode_prepend. cbn [pec_node node_name].
    unfold pbcq_name at 2. rewrite String.eqb_refl. reflexivity.
Qed.



(** X13. An export that returns has changed the subtree of the xscom node
    only, and there it has only added: every node at an offset that parts
    ways with [xscom_offset] is as it was; the xscom node keeps its name
    and its properties; it has one subnode more, the node of the PEC, in
    front; and each subnode it had, with all that is below it, is one
    position further. *)
Theorem dt_xscom_frame (refuses : libfdt_oracle) (pec : PnvPhb4PecState)
    (fdt fdt' : fdt_node) (off : list nat) (r : Z) :
  num_stacks pec < 2 ^ 31 ->
  pnv_pec_dt_xscom_ refuses pec fdt off = Returns (fdt', r) ->
  (forall q, offsets_diverge off q -> node_at fdt' q = node_at fdt q)
  /\ exists xscom xscom',
       node_at fdt off = Some xscom
       /\ node_at fdt' off = Some xscom'
       /\ node_name xscom' = node_name xscom
       /\ node_props xscom' = node_props xscom
       /\ node_subnodes xscom' = pec_node_ pec :: node_subnodes xscom
       /\ forall (k : nat) (q : list nat),
            node_at fdt' (off ++ S k :: q) = node_at fdt (off ++ k :: q).
Proof.
  intros Hn H.
  destruct (dt_xscom_returns refuses pec fdt fdt' off r Hn H)
    as [_ [x (Hx & Hh & ->)]].
  assert (Hs : is_Some (node_at fdt off)) by (rewrite Hx; eauto).
  split; [intros q Hq; apply node_at_plug_diverge; exact Hq|].
  exists x, (prepend_subnode (pec_node_ pec) x).
  split; [exact Hx|]. split; [apply node_at_plug; exact Hs|].
  split; [reflexivity|]. split; [reflexivity|]. split; [reflexivity|].
  intros k q. rewrite !node_at_app, node_at_plug, Hx by exact Hs. reflexivity.
Qed.

(** X14. What the export writes can be read back: the [reg] property of the
    PEC's node decodes, as four big-endian 32-bit words, to the nest base,
    the nest size, the pci base and the pci size, and [ibm,pec-index]
    decodes to the index of the PEC. *)
Theorem dt_xscom_reg_decodes (refuses : libfdt_oracle) (pec : PnvPhb4PecState)
    (fdt fdt' : fdt_node) (off : list nat) (r : Z) :
  0 <= PNV9_XSCOM_PEC_NEST_SIZE < 2 ^ 32 ->
  0 <= PNV9_XSCOM_PEC_PCI_SIZE < 2 ^ 32 ->
  0 <= index pec < 2 ^ 32 ->
  num_stacks pec < 2 ^ 31 ->
  pnv_pec_dt_xscom_ refuses pec fdt off = Returns (fdt', r) ->
  exists xscom node reg idx,
    node_at fdt off = Some xscom
    /\ node_at fdt' (off ++ [0%nat]) = Some node
    /\ node_name node = pbcq_name pec
    /\ props_get (node_props node) "reg" = Some reg
    /\ be32_words reg =
       [ pnv_pec_xscom_nest_base pec; PNV9_XSCOM_PEC_NEST_SIZE;
         pnv_pec_xscom_pci_base pec; PNV9_XSCOM_PEC_PCI_SIZE ]
    /\ props_get (node_props node) "ibm,pec-index" = Some idx
    /\ be32_words idx = [ index pec ].
Proof.
  intros Hns Hps Hi Hn H.
  destruct (dt_xscom_returns refuses pec fdt fdt' off r Hn H)
    as [_ [x (Hx & Hh & ->)]].
  assert (Hs : is_Some (node_at fdt off)) by (rewrite Hx; eauto).
  eexists x, (pec_node_ pec), _, _.
  split; [exact Hx|]. split; [apply node_at_prepended; exact Hs|].
  split; [reflexivity|]. split; [reflexivity|]. split.
  - cbn [prop_val].
    rewrite <- (app_nil_r (cpu_to_be32 PNV9_XSCOM_PEC_PCI_SIZE)), !be32_words_cons.
    rewrite !be_to_cpu_be32; try assumption; try apply uint32_t_range. reflexivity.
  - split; [reflexivity|]. cbn [be32_prop prop_val].
    rewrite <- (app_nil_r (cpu_to_be32 _)), be32_words_cons.
    rewrite be_to_cpu_be32 by apply uint32_t_range.
    rewrite uint32_t_small by exact Hi. reflexivity.
Qed.

End ExportMore.

(** ** The further properties on a POWER9 chip *)

(** X1 on POWER9: PEC2 realised with the default PHBs. *)
Lemma realize_success_shape_pnv9 :
  pnv_pec_num_stacks !! Z.to_nat (index pec2_created) = Some (num_stacks pec2_realized)
  /\ nest_regs pec2_realized = nest_regs pec2_created
  /\ pci_regs pec2_realized = pci_regs pec2_created
  /\ nest_regs_mr pec2_realized = Some (@nest_region pec2_created pnv9_headers)
  /\ pci_regs_mr pec2_realized = Some (@pci_region pec2_created pnv9_headers)
  /\ (forall k : Z, 0 <= k < num_stacks pec2_realized ->
        exists old s,
          stacks pec2_created !! Z.to_nat k = Some old
          /\ stacks pec2_realized !! Z.to_nat k = Some s
          /\ stack_no s = k
          /\ stk_pec s = true
          /\ stk_realized s = true
          /\ stk_parented s = stk_parented old)
  /\ (forall k : Z, num_stacks pec2_realized <= k < @PHB4_PEC_MAX_STACKS pnv9_headers ->
        exists old,
          stacks pec2_created !! Z.to_nat k = Some old
          /\ stacks pec2_realized !! Z.to_nat k = Some (object_unparent old)).
Proof.
  apply (@realize_success_shape pnv9_headers true sysbus_realize_ok consecutive_phb_index
           pec2_created pec2_realized).
  - reflexivity.
  - reflexivity.
  - vm_compute. reflexivity.
Defined.

(** X2 on POWER9: the realisation of PEC2 when PHB 4 is refused. *)
Lemma realize_stack_failure_pnv9 :
  true = true
  /\ nest_regs_mr pec2_failed = nest_regs_mr pec2_created
  /\ pci_regs_mr pec2_failed = pci_regs_mr pec2_created
  /\ nest_regs pec2_failed = nest_regs pec2_created
  /\ pci_regs pec2_failed = pci_regs pec2_created
  /\ exists j old s p,
       0 <= j < num_stacks pec2_failed
       /\ stacks pec2_created !! Z.to_nat j = Some old
       /\ stacks pec2_failed !! Z.to_nat j = Some s
       /\ stk_realized s = stk_realized old
       /\ phb s = Some p
       /\ sysbus_realize_not_4 p = Some {| error_msg := "PHB 4 cannot be realized" |}
       /\ phb_index p = consecutive_phb_index (index pec2_created) j
       /\ phb_realized p = false
       /\ (forall k : Z, 0 <= k < j ->
             exists sk, stacks pec2_failed !! Z.to_nat k = Some sk
                        /\ stk_realized sk = true)
       /\ (forall k : nat, (Z.to_nat j < k)%nat ->
             stacks pec2_failed !! k = stacks pec2_created !! k).
Proof.
  apply (@realize_stack_failure pnv9_headers true sysbus_realize_not_4
           consecutive_phb_index pec2_created pec2_failed
           {| error_msg := "PHB 4 cannot be realized" |}).
  - reflexivity.
  - reflexivity.
  - vm_compute. reflexivity.
  - vm_compute. reflexivity.
Defined.

(** PEC2 after the failed realisation: stack 0 realised, stack 1 with an
    unrealised PHB, stack 2 untouched and still a child; no region. *)
Example pec2_failed_stacks :
  map (fun s => (stack_no s, option_map phb_index (phb s), stk_realized s, stk_parented s))
      (stacks pec2_failed)
  = [ (0, Some 3, true, true); (1, Some 4, false, true); (0, None, false, true) ]
  /\ nest_regs_mr pec2_failed = None
  /\ pci_regs_mr pec2_failed = None.
Proof. vm_compute. repeat split; reflexivity. Qed.

(** X15 on POWER9: the PHB of the last stack of PEC2. *)
Lemma realize_default_phbs_pnv9 :
  exists s p,
    stacks pec2_realized !! Z.to_nat 2 = Some s
    /\ phb s = Some p
    /\ phb_chip_id p = chip_id pec2_realized
    /\ phb_index p = consecutive_phb_index (index pec2_realized) 2
    /\ phb_version p = @PNV_PHB4_VERSION pnv9_headers
    /\ phb_stack p = stack_no s
    /\ stack_no s = 2
    /\ phb_realized p = true.
Proof.
  apply (@realize_default_phbs pnv9_headers sysbus_realize_ok consecutive_phb_index
           pec2_created pec2_realized 2).
  - reflexivity.
  - reflexivity.
  - vm_compute. reflexivity.
  - vm_compute. split; [discriminate | reflexivity].
Defined.

(** X3 on POWER9: PEC2 realised without default devices, with a
    [sysbus_realize] that would refuse PHB 4. *)
Lemma realize_without_defaults_pnv9 :
  exists pec',
    @pnv_pec_realize pnv9_headers false sysbus_realize_not_4 consecutive_phb_index
      pec2_created = Returns (pec', None)
    /\ forall k : Z, 0 <= k < 3 ->
         exists old s,
           stacks pec2_created !! Z.to_nat k = Some old
           /\ stacks pec' !! Z.to_nat k = Some s
           /\ phb s = phb old
           /\ stk_realized s = true.
Proof.
  apply (@realize_without_defaults pnv9_headers sysbus_realize_not_4
           consecutive_phb_index pec2_created 3).
  - reflexivity.
  - reflexivity.
  - vm_compute. split; [discriminate | reflexivity].
  - reflexivity.
Defined.

(** X4 on POWER9: register 2 of the pci bank of the realised PEC2. *)
Lemma fresh_pec_reads_zero_pnv9 :
  read (@xscom_ops pnv9_headers Pci) pec2_realized 0x10 8 = Returns 0.
Proof.
  apply (@fresh_pec_reads_zero pnv9_headers true sysbus_realize_ok consecutive_phb_index
           0 2 3 pec2_realized None Pci 0x10).
  - reflexivity.
  - reflexivity.
  - reflexivity.
  - vm_compute. reflexivity.
  - vm_compute. split; [discriminate | reflexivity].
Defined.

(** X5 on POWER9: two writes to the hardware-config register of the nest
    bank. *)
Lemma write_overwrites_pnv9 :
  exists p1 p2,
    write (@xscom_ops pnv9_headers Nest) pec2_realized 0 1 8 = Returns (p1, [])
    /\ write (@xscom_ops pnv9_headers Nest) p1 0 2 8 = Returns (p2, [])
    /\ write (@xscom_ops pnv9_headers Nest) pec2_realized 0 2 8 = Returns (p2, []).
Proof.
  apply (@write_overwrites pnv9_headers Nest pec2_realized 0 1 2).
  - reflexivity.
  - reflexivity.
  - vm_compute. lia.
Defined.

(** X6 on POWER9: a write to the nest bank and a write to the pci bank. *)
Lemma writes_commute_pnv9 :
  exists p1 p2 p,
    write (@xscom_ops pnv9_headers Nest) pec2_realized 0 1 8 = Returns (p1, [])
    /\ write (@xscom_ops pnv9_headers Pci) p1 16 2 8 = Returns (p, [])
    /\ write (@xscom_ops pnv9_headers Pci) pec2_realized 16 2 8 = Returns (p2, [])
    /\ write (@xscom_ops pnv9_headers Nest) p2 0 1 8 = Returns (p, []).
Proof.
  apply (@writes_commute pnv9_headers Nest Pci pec2_realized 0 1 16 2).
  - reflexivity.
  - reflexivity.
  - vm_compute. lia.
  - vm_compute. lia.
  - left. discriminate.
Defined.

(** X7 on POWER9: a read at 2^35 after a write at 0 of the nest bank. *)
Lemma read_over_write_pnv9 :
  exists pec',
    write (@xscom_ops pnv9_headers Nest) pec2_realized 0 0x1234 8 = Returns (pec', [])
    /\ (Nest = Nest /\ uint32_t (Z.shiftr (2 ^ 35) 3) = uint32_t (Z.shiftr 0 3) ->
        read (@xscom_ops pnv9_headers Nest) pec' (2 ^ 35) 8 = Returns 0x1234)
    /\ (Nest <> Nest \/ uint32_t (Z.shiftr (2 ^ 35) 3) <> uint32_t (Z.shiftr 0 3) ->
        read (@xscom_ops pnv9_headers Nest) pec' (2 ^ 35) 8
        = read (@xscom_ops pnv9_headers Nest) pec2_realized (2 ^ 35) 8).
Proof.
  apply (@read_over_write pnv9_headers Nest Nest pec2_realized 0 0x1234 (2 ^ 35)).
  - reflexivity.
  - reflexivity.
  - vm_compute. lia.
Defined.

(** X8 on POWER9: byte 3 of register 1, one multiple of 2^35 up. *)
Lemma address_decoding_pnv9 :
  read (@xscom_ops pnv9_headers Nest) pec2_realized (8 * 1 + 3 + 1 * 2 ^ 35) 4
  = read (@xscom_ops pnv9_headers Nest) pec2_realized (8 * uint32_t 1) 8
  /\ state_after (write (@xscom_ops pnv9_headers Nest) pec2_realized
                    (8 * 1 + 3 + 1 * 2 ^ 35) 7 4)
     = state_after (write (@xscom_ops pnv9_headers Nest) pec2_realized
                      (8 * uint32_t 1) 7 8).
Proof.
  apply (@address_decoding pnv9_headers Nest pec2_realized 1 3 1 7 4).
  vm_compute. split; [discriminate | reflexivity].
Defined.

(** X9 on POWER9: a write far outside the window, then a read inside. *)
Lemma xscom_accesses_safe_pnv9 :
  exists pec',
    @pec_run pnv9_headers consecutive_phb_index pec2_realized
      [ CallXscom (XscomWrite Nest 0x1000 5); CallXscom (XscomRead Pci 0x10) ]
    = Returns pec'
    /\ @pec_sized pnv9_headers pec' = true.
Proof.
  apply (@xscom_accesses_safe pnv9_headers consecutive_phb_index
           [ CallXscom (XscomWrite Nest 0x1000 5); CallXscom (XscomRead Pci 0x10) ]
           pec2_realized).
  - reflexivity.
  - reflexivity.
  - reflexivity.
  - repeat constructor; vm_compute; discriminate.
Defined.


(** The export of PEC2 exits on a blob without room for the properties,
    although the xscom node is there and has no node of PEC2 yet. *)
Example dt_xscom_no_room :
  node_at busy_fdt [0%nat] = Some busy_xscom
  /\ has_subnode busy_xscom (@pbcq_name pnv9_headers pec2_realized) = false
  /\ @pnv_pec_dt_xscom pnv9_headers consecutive_phb_index no_room_for_props
       pec2_realized busy_fdt [0%nat] = Exits.
Proof. repeat split; vm_compute; reflexivity. Qed.

(** X11 on POWER9: PEC2 exported twice. *)
Lemma dt_xscom_twice_exits_pnv9 :
  @pnv_pec_dt_xscom pnv9_headers consecutive_phb_index no_refusal pec2_realized
    busy_fdt_pec2 [0%nat] = Exits.
Proof.
  apply (@dt_xscom_twice_exits pnv9_headers consecutive_phb_index no_refusal no_refusal
           pec2_realized busy_fdt busy_fdt_pec2 [0%nat] 0).
  - vm_compute. reflexivity.
  - vm_compute. reflexivity.
Defined.


(** The names under the xscom node after the exports of PEC1 and PEC2. *)
Example dt_xscom_two_pecs_names :
  option_map (fun x => map node_name (node_subnodes x))
    (node_at
       (plug busy_fdt [0%nat]
          (prepend_subnode
             (@pec_node pnv9_headers consecutive_phb_index pec2_realized)
             (prepend_subnode
                (@pec_node pnv9_headers consecutive_phb_index pec1_realized)
                busy_xscom))) [0%nat])
  = Some [ "pbcq@4011400"%string; "pbcq@4011000"%string; "chiptod@40000"%string ].
Proof. vm_compute. reflexivity. Qed.

(** X13 on POWER9: the export of PEC2 into the populated tree. *)
Lemma dt_xscom_frame_pnv9 :
  (forall q, offsets_diverge [0%nat] q ->
     node_at busy_fdt_pec2 q = node_at busy_fdt q)
  /\ exists xscom xscom',
       node_at busy_fdt [0%nat] = Some xscom
       /\ node_at busy_fdt_pec2 [0%nat] = Some xscom'
       /\ node_name xscom' = node_name xscom
       /\ node_props xscom' = node_props xscom
       /\ node_subnodes xscom'
          = @pec_node pnv9_headers consecutive_phb_index pec2_realized
            :: node_subnodes xscom
       /\ forall (k : nat) (q : list nat),
            node_at busy_fdt_pec2 ([0%nat] ++ S k :: q)
            = node_at busy_fdt ([0%nat] ++ k :: q).
Proof.
  apply (@dt_xscom_frame pnv9_headers consecutive_phb_index no_refusal pec2_realized
           busy_fdt busy_fdt_pec2 [0%nat] 0).
  - vm_compute. reflexivity.
  - vm_compute. reflexivity.
Defined.

(** What the frame says of the populated tree: the sibling of the xscom
    node and its child are untouched, the xscom node keeps its property,
    and its old subnode is now its second. *)
Example dt_xscom_frame_busy :
  node_at busy_fdt_pec2 [1%nat] = node_at busy_fdt [1%nat]
  /\ node_at busy_fdt_pec2 [1%nat; 0%nat] = Some (FdtNode "PowerPC,POWER9@0" [] [])
  /\ option_map node_props (node_at busy_fdt_pec2 [0%nat])
     = Some [ {| prop_name := "compatible"; prop_val := chars_of "ibm,xscom" |} ]
  /\ option_map (fun x => map node_name (node_subnodes x)) (node_at busy_fdt_pec2 [0%nat])
     = Some [ "pbcq@4011400"%string; "chiptod@40000"%string ]
  /\ node_at busy_fdt_pec2 [0%nat; 1%nat] = node_at busy_fdt [0%nat; 0%nat].
Proof. repeat split; vm_compute; reflexivity. Qed.

(** X14 on POWER9: the [reg] of PEC2 read back. *)
Lemma dt_xscom_reg_decodes_pnv9 :
  exists xscom node reg idx,
    node_at busy_fdt [0%nat] = Some xscom
    /\ node_at busy_fdt_pec2 ([0%nat] ++ [0%nat]) = Some node
    /\ node_name node = @pbcq_name pnv9_headers pec2_realized
    /\ props_get (node_props node) "reg" = Some reg
    /\ be32_words reg =
       [ @pnv_pec_xscom_nest_base pnv9_headers pec2_realized;
         @PNV9_XSCOM_PEC_NEST_SIZE pnv9_headers;
         @pnv_pec_xscom_pci_base pnv9_headers pec2_realized;
         @PNV9_XSCOM_PEC_PCI_SIZE pnv9_headers ]
    /\ props_get (node_props node) "ibm,pec-index" = Some idx
    /\ be32_words idx = [ index pec2_realized ].
Proof.
  apply (@dt_xscom_reg_decodes pnv9_headers consecutive_phb_index no_refusal pec2_realized
           busy_fdt busy_fdt_pec2 [0%nat] 0).
  - vm_compute. split; [discriminate | reflexivity].
  - vm_compute. split; [discriminate | reflexivity].
  - vm_compute. split; [discriminate | reflexivity].
  - vm_compute. reflexivity.
  - vm_compute. reflexivity.
Defined.
